(** * MalinWallet backend: the authentication routes of [src/routes/auth.ts]

    A shallow embedding of the five Express handlers ([/auth/signup],
    [/auth/verify-email], [/auth/login], [/auth/request-reset] and
    [/auth/confirm-reset]) over the in-memory [userStore], followed by the
    properties of the account life cycle that the design document states. *)

From Stdlib Require Import ZArith NArith String Ascii List Bool Lia.
From stdpp Require Import base option gmap strings list.

Local Open Scope string_scope.
Local Open Scope Z_scope.

(** ** JavaScript values

    [req.body] is whatever [express.json()] parsed, so a field of the body is
    an arbitrary JSON value, or [undefined] when the key is missing.  Numbers
    are represented by integers: the handlers only ever test a number for
    being zero. *)

#[local] Set Warnings "-register-all".
Inductive JsValue : Type :=
| JsUndefined
| JsNull
| JsBool (b : bool)
| JsNumber (n : Z)
| JsString (s : string)
| JsArray (items : list JsValue)
| JsObject (fields : list (string * JsValue)).

(** [!v] is [negb (truthy v)]. *)
Definition truthy (v : JsValue) : bool :=
  match v with
  | JsUndefined | JsNull => false
  | JsBool b => b
  | JsNumber n => negb (n =? 0)
  | JsString s => negb (String.eqb s "")
  | JsArray _ | JsObject _ => true
  end.

(** [a || undefined]: the left operand when it is truthy. *)
Definition orUndefined (v : JsValue) : JsValue :=
  if truthy v then v else JsUndefined.

(** [stored !== v] for a field declared [string | undefined]. *)
Definition strictNeq (stored : option string) (v : JsValue) : bool :=
  match stored, v with
  | Some s, JsString t => negb (String.eqb s t)
  | None, JsUndefined => false
  | _, _ => true
  end.

(** ** Strings

    A character of a [string] stands for one code unit; the model covers the
    code units below 256, where [toLowerCase] and [trim] act as follows. *)

Definition lowerCodeUnit (c : ascii) : ascii :=
  let n := N_of_ascii c in
  if ((65 <=? n) && (n <=? 90) ||
      (192 <=? n) && (n <=? 222) && negb (n =? 215))%N
  then ascii_of_N (n + 32)
  else c.

Fixpoint toLowerCase (s : string) : string :=
  match s with
  | EmptyString => EmptyString
  | String c rest => String (lowerCodeUnit c) (toLowerCase rest)
  end.

(** White space and line terminators, as [String.prototype.trim] strips
    them: TAB, LF, VT, FF, CR, SP and NBSP. *)
Definition isWhiteSpace (c : ascii) : bool :=
  let n := N_of_ascii c in
  ((9 <=? n) && (n <=? 13) || (n =? 32) || (n =? 160))%N.

Fixpoint trimStart (s : string) : string :=
  match s with
  | EmptyString => EmptyString
  | String c rest => if isWhiteSpace c then trimStart rest else s
  end.

Fixpoint trimEnd (s : string) : string :=
  match s with
  | EmptyString => EmptyString
  | String c rest =>
      match trimEnd rest with
      | EmptyString => if isWhiteSpace c then EmptyString else String c EmptyString
      | kept => String c kept
      end
  end.

Definition trim (s : string) : string := trimEnd (trimStart s).

Fixpoint allWhiteSpace (s : string) : bool :=
  match s with
  | EmptyString => true
  | String c rest => isWhiteSpace c && allWhiteSpace rest
  end.

(** ** Data model ([src/types/user.ts]) *)

(** [walletAddress] is declared [string | undefined], but signup stores
    whatever truthy value the body carried, hence a [JsValue]. *)
Record UserRecord : Type := mkUser {
  email : string;
  passwordHash : string;
  isVerified : bool;
  verificationCode : option string;
  resetCode : option string;
  walletAddress : JsValue
}.

(** What [emailService.ts] is asked to deliver.  Both senders catch their own
    transport errors, so a call never throws. *)
Inductive Mail : Type :=
| VerificationMail (to code : string)
| ResetPasswordMail (to code : string).

(** The process state: the [userStore] map and the mails handed to the
    notifier, oldest first. *)
Record World : Type := mkWorld {
  userStore : gmap string UserRecord;
  outbox : list Mail
}.

Definition emptyWorld : World := mkWorld ∅ [].

(** The decoded content of a token made by [jwt.sign]. *)
Record Token : Type := mkToken {
  sub : string;
  tokenWalletAddress : JsValue;
  iat : Z;
  exp : Z;
  signedWith : string
}.

Inductive Body : Type :=
| ErrorBody (error : string)
| MessageBody (message : string)
| LoginBody (accessToken : Token) (bodyEmail : string) (bodyWalletAddress : JsValue).

Record Response : Type := mkResponse {
  status : Z;
  body : Body
}.

(** A request is the JSON object that [express.json()] left in [req.body],
    seen through the fields its handler destructures; a field the object
    lacks is [JsUndefined].  The server is taken to serve one request after
    the other. *)
Record SignupRequest : Type := mkSignupRequest {
  signupEmail : JsValue;
  signupPassword : JsValue;
  signupWalletAddress : JsValue
}.

Record VerifyEmailRequest : Type := mkVerifyEmailRequest {
  verifyEmailEmail : JsValue;
  verifyEmailCode : JsValue
}.

Record LoginRequest : Type := mkLoginRequest {
  loginEmail : JsValue;
  loginPassword : JsValue
}.

Record RequestResetRequest : Type := mkRequestResetRequest {
  requestResetEmail : JsValue
}.

Record ConfirmResetRequest : Type := mkConfirmResetRequest {
  confirmResetEmail : JsValue;
  confirmResetCode : JsValue;
  confirmResetNewPassword : JsValue
}.

(** ** The handler monad

    A handler threads the process state and either goes on with a value or
    has already answered: [res.status(..).json(..); return].  An exception
    reaches the handler's [catch], which answers 500 in all five routes;
    what was written to the store before the exception stays written. *)

Definition Handler (A : Type) : Type := World → World * (Response + A).

Definition pure {A} (a : A) : Handler A := λ w, (w, inr a).

Definition andThen {A B} (h : Handler A) (k : A → Handler B) : Handler B :=
  λ w, match h w with
       | (w', inl r) => (w', inl r)
       | (w', inr a) => k a w'
       end.

Notation "x ⇐ h ;; k" := (andThen h (λ x, k))
  (at level 100, h at next level, right associativity, only parsing).
Notation "h ;;; k" := (andThen h (λ _, k))
  (at level 100, right associativity, only parsing).

Definition respond {A} (code : Z) (b : Body) : Handler A :=
  λ w, (w, inl (mkResponse code b)).

Definition throw {A} : Handler A :=
  respond 500 (ErrorBody "Internal server error").

(** [if (c) { res.status(code).json(b); return; }] *)
Definition rejectIf (c : bool) (code : Z) (b : Body) : Handler unit :=
  if c then respond code b else pure tt.

Definition run (h : Handler Response) (w : World) : World * Response :=
  match h w with
  | (w', inl r) => (w', r)
  | (w', inr r) => (w', r)
  end.

(** [email.toLowerCase().trim()]; a truthy value that is not a string has no
    [toLowerCase] method and the call throws a [TypeError]. *)
Definition normalize (s : string) : string := trim (toLowerCase s).

Definition normalizeEmail (v : JsValue) : Handler string :=
  match v with
  | JsString s => pure (normalize s)
  | _ => throw
  end.

Definition storeHas (key : string) : Handler bool :=
  λ w, (w, inr (bool_decide (is_Some (userStore w !! key)))).

Definition storeGet (key : string) : Handler (option UserRecord) :=
  λ w, (w, inr (userStore w !! key)).

Definition storeSet (key : string) (user : UserRecord) : Handler unit :=
  λ w, (mkWorld (<[key := user]> (userStore w)) (outbox w), inr tt).

Definition send (m : Mail) : Handler unit :=
  λ w, (mkWorld (userStore w) (outbox w ++ [m]), inr tt).

Definition sendVerificationEmail (to code : string) : Handler unit :=
  send (VerificationMail to code).

Definition sendResetPasswordEmail (to code : string) : Handler unit :=
  send (ResetPasswordMail to code).

(** ** The routes

    Three things come from outside [auth.ts].  [bcryptjs] is a library: its
    [hash] draws a random salt, here an argument, and both [hash] and
    [compare] reject a password that is not a string with an [Error].  The
    signing secret is [process.env.JWT_SECRET].  [generateVerificationCode]
    of [utils/random] is called without arguments; the string it returned is
    an argument of the handlers that call it. *)

Section Routes.

Variable bcryptHash : string → string → string.    (* salt, password *)
Variable bcryptCompare : string → string → bool.   (* password, hash *)
Variable envJwtSecret : option string.

Definition JWT_SECRET : string :=
  match envJwtSecret with
  | Some s => if String.eqb s "" then "default-secret-change-in-production" else s
  | None => "default-secret-change-in-production"
  end.

Definition hashPassword (salt : string) (password : JsValue) : Handler string :=
  match password with
  | JsString p => pure (bcryptHash salt p)
  | _ => throw
  end.

Definition comparePassword (password : JsValue) (hash : string) : Handler bool :=
  match password with
  | JsString p => pure (bcryptCompare p hash)
  | _ => throw
  end.

(** [jwt.sign({sub, walletAddress}, JWT_SECRET, {expiresIn: '2h'})] at
    clock reading [now] (seconds). *)
Definition jwtSign (now : Z) (subject : string) (wallet : JsValue) : Token :=
  mkToken subject wallet now (now + 7200) JWT_SECRET.

Definition signup (salt generated : string) (req : SignupRequest) : Handler Response :=
  let emailArg := signupEmail req in
  let password := signupPassword req in
  let walletAddress := signupWalletAddress req in
  rejectIf (negb (truthy emailArg) || negb (truthy password))
    400 (ErrorBody "Email and password are required") ;;;
  normalizedEmail ⇐ normalizeEmail emailArg ;;
  exists_ ⇐ storeHas normalizedEmail ;;
  rejectIf exists_ 409 (ErrorBody "User already exists") ;;;
  passwordHash ⇐ hashPassword salt password ;;
  let verificationCode := generated in
  let user := mkUser normalizedEmail passwordHash false (Some verificationCode)
                     None (orUndefined walletAddress) in
  storeSet normalizedEmail user ;;;
  sendVerificationEmail normalizedEmail verificationCode ;;;
  respond 201 (MessageBody
    "User created successfully. Please check your email for verification code.").

Definition verifyEmail (req : VerifyEmailRequest) : Handler Response :=
  let emailArg := verifyEmailEmail req in
  let code := verifyEmailCode req in
  rejectIf (negb (truthy emailArg) || negb (truthy code))
    400 (ErrorBody "Email and code are required") ;;;
  normalizedEmail ⇐ normalizeEmail emailArg ;;
  found ⇐ storeGet normalizedEmail ;;
  match found with
  | None => respond 404 (ErrorBody "User not found")
  | Some user =>
      rejectIf (isVerified user) 400 (ErrorBody "Email already verified") ;;;
      rejectIf (strictNeq (verificationCode user) code)
        400 (ErrorBody "Invalid verification code") ;;;
      let user := mkUser (email user) (passwordHash user) true None
                         (resetCode user) (walletAddress user) in
      storeSet normalizedEmail user ;;;
      respond 200 (MessageBody "Email verified successfully")
  end.

Definition login (now : Z) (req : LoginRequest) : Handler Response :=
  let emailArg := loginEmail req in
  let password := loginPassword req in
  rejectIf (negb (truthy emailArg) || negb (truthy password))
    400 (ErrorBody "Email and password are required") ;;;
  normalizedEmail ⇐ normalizeEmail emailArg ;;
  found ⇐ storeGet normalizedEmail ;;
  match found with
  | None => respond 401 (ErrorBody "Invalid credentials")
  | Some user =>
      rejectIf (negb (isVerified user))
        403 (ErrorBody "Email not verified. Please verify your email first.") ;;;
      isValidPassword ⇐ comparePassword password (passwordHash user) ;;
      rejectIf (negb isValidPassword) 401 (ErrorBody "Invalid credentials") ;;;
      let token := jwtSign now (email user) (walletAddress user) in
      respond 200 (LoginBody token (email user) (walletAddress user))
  end.

Definition requestReset (generated : string) (req : RequestResetRequest) : Handler Response :=
  let emailArg := requestResetEmail req in
  rejectIf (negb (truthy emailArg)) 400 (ErrorBody "Email is required") ;;;
  normalizedEmail ⇐ normalizeEmail emailArg ;;
  found ⇐ storeGet normalizedEmail ;;
  match found with
  | Some user =>
      let resetCode_ := generated in
      let user := mkUser (email user) (passwordHash user) (isVerified user)
                         (verificationCode user) (Some resetCode_)
                         (walletAddress user) in
      storeSet normalizedEmail user ;;;
      sendResetPasswordEmail normalizedEmail resetCode_
  | None => pure tt
  end ;;;
  respond 200 (MessageBody
    "If the email exists, a password reset code has been sent.").

Definition confirmReset (salt : string) (req : ConfirmResetRequest) : Handler Response :=
  let emailArg := confirmResetEmail req in
  let code := confirmResetCode req in
  let newPassword := confirmResetNewPassword req in
  rejectIf (negb (truthy emailArg) || negb (truthy code) || negb (truthy newPassword))
    400 (ErrorBody "Email, code, and new password are required") ;;;
  normalizedEmail ⇐ normalizeEmail emailArg ;;
  found ⇐ storeGet normalizedEmail ;;
  match found with
  | None => respond 404 (ErrorBody "User not found")
  | Some user =>
      rejectIf (strictNeq (resetCode user) code)
        400 (ErrorBody "Invalid reset code") ;;;
      newPasswordHash ⇐ hashPassword salt newPassword ;;
      let user := mkUser (email user) newPasswordHash (isVerified user)
                         (verificationCode user) None (walletAddress user) in
      storeSet normalizedEmail user ;;;
      respond 200 (MessageBody "Password reset successfully")
  end.

End Routes.

(** ** Requests as events

    A POST reaches one of the five routes.  When it carried a JSON object,
    [req.body] is that object and the handler runs on its fields.  When it
    carried no JSON body, [express.json()] leaves [req.body] undefined: the
    destructuring [const {...} = req.body] on the first line of the
    handler's [try] throws, and the [catch] answers 500. *)

Inductive Route : Type :=
| SignupRoute | VerifyEmailRoute | LoginRoute | RequestResetRoute | ConfirmResetRoute.

Inductive Request : Type :=
| Signup (salt generated : string) (req : SignupRequest)
| VerifyEmail (req : VerifyEmailRequest)
| Login (now : Z) (req : LoginRequest)
| RequestReset (generated : string) (req : RequestResetRequest)
| ConfirmReset (salt : string) (req : ConfirmResetRequest)
| NoBody (route : Route).

Definition handle (bcryptHash : string → string → string)
    (bcryptCompare : string → string → bool) (envJwtSecret : option string)
    (r : Request) : Handler Response :=
  match r with
  | Signup salt generated req => signup bcryptHash salt generated req
  | VerifyEmail req => verifyEmail req
  | Login now req => login bcryptCompare envJwtSecret now req
  | RequestReset generated req => requestReset generated req
  | ConfirmReset salt req => confirmReset bcryptHash salt req
  | NoBody _ => throw
  end.

Definition isDigit (c : ascii) : bool :=
  ((48 <=? N_of_ascii c) && (N_of_ascii c <=? 57))%N.

(** Modelled from the spec: the result of [generateVerificationCode]
    ([utils/random.ts], which is not among the sources) is a numeric string
    of fixed length, six digits. *)
Definition isGeneratedCode (code : string) : bool :=
  (String.length code =? 6)%nat && forallb isDigit (list_ascii_of_string code).

(** The codes an event took from the generator are generated codes. *)
Definition generatorOk (r : Request) : bool :=
  match r with
  | Signup _ generated _ | RequestReset generated _ => isGeneratedCode generated
  | VerifyEmail _ | Login _ _ | ConfirmReset _ _ | NoBody _ => true
  end.

(** The worlds the server can be in: it starts with an empty store and
    serves one request after the other. *)
Inductive reachable (bcryptHash : string → string → string)
    (bcryptCompare : string → string → bool) (envJwtSecret : option string)
  : World → Prop :=
| reachable_start : reachable bcryptHash bcryptCompare envJwtSecret emptyWorld
| reachable_serve w r :
    reachable bcryptHash bcryptCompare envJwtSecret w →
    generatorOk r = true →
    reachable bcryptHash bcryptCompare envJwtSecret
      (fst (run (handle bcryptHash bcryptCompare envJwtSecret r) w)).

(** The store invariant: a record sits under its own email; it holds a
    pending verification code exactly while it is unverified; the codes it
    holds came from the generator. *)
Definition userOk (key : string) (u : UserRecord) : bool :=
  String.eqb (email u) key
  && match isVerified u, verificationCode u with
     | true, None => true
     | false, Some c => isGeneratedCode c
     | _, _ => false
     end
  && match resetCode u with
     | None => true
     | Some c => isGeneratedCode c
     end.

Definition storeOk (w : World) : Prop :=
  map_Forall (λ key u, userOk key u = true) (userStore w).

(** ** The responses by the error kinds of the design

    InvalidInput and InvalidCode each have one response per route that
    gives them; the other kinds have one response. *)

(** InvalidInput of signup and of login. *)
Definition MissingEmailOrPassword : Response :=
  mkResponse 400 (ErrorBody "Email and password are required").
(** InvalidInput of verify-email. *)
Definition MissingEmailOrCode : Response :=
  mkResponse 400 (ErrorBody "Email and code are required").
Definition Conflict : Response :=
  mkResponse 409 (ErrorBody "User already exists").
Definition NotFound : Response :=
  mkResponse 404 (ErrorBody "User not found").
Definition AlreadyVerified : Response :=
  mkResponse 400 (ErrorBody "Email already verified").
(** InvalidCode of verify-email. *)
Definition InvalidCode : Response :=
  mkResponse 400 (ErrorBody "Invalid verification code").
(** InvalidCode of confirm-reset. *)
Definition InvalidResetCode : Response :=
  mkResponse 400 (ErrorBody "Invalid reset code").
Definition InvalidCredentials : Response :=
  mkResponse 401 (ErrorBody "Invalid credentials").
Definition NotVerified : Response :=
  mkResponse 403 (ErrorBody "Email not verified. Please verify your email first.").
Definition InternalError : Response :=
  mkResponse 500 (ErrorBody "Internal server error").
Definition Created : Response :=
  mkResponse 201 (MessageBody
    "User created successfully. Please check your email for verification code.").
Definition Verified : Response :=
  mkResponse 200 (MessageBody "Email verified successfully").
Definition ResetRequested : Response :=
  mkResponse 200 (MessageBody
    "If the email exists, a password reset code has been sent.").
Definition PasswordReset : Response :=
  mkResponse 200 (MessageBody "Password reset successfully").

(** The answer of a successful login for the record [u]. *)
Definition LoggedIn (envJwtSecret : option string) (now : Z) (u : UserRecord) : Response :=
  mkResponse 200
    (LoginBody (jwtSign envJwtSecret now (email u) (walletAddress u))
               (email u) (walletAddress u)).

(** The record updates of the three mutating routes. *)
Definition markVerified (u : UserRecord) : UserRecord :=
  mkUser (email u) (passwordHash u) true None (resetCode u) (walletAddress u).
Definition withResetCode (code : string) (u : UserRecord) : UserRecord :=
  mkUser (email u) (passwordHash u) (isVerified u) (verificationCode u)
         (Some code) (walletAddress u).
Definition withPassword (hash : string) (u : UserRecord) : UserRecord :=
  mkUser (email u) hash (isVerified u) (verificationCode u) None (walletAddress u).

(** ** What the routes assume of [bcryptjs]

    [compare] accepts a password against any hash made of it. *)

Definition acceptsOwn (bcryptHash : string → string → string)
    (bcryptCompare : string → string → bool) : Prop :=
  ∀ salt p, bcryptCompare p (bcryptHash salt p) = true.

(** ** A codec for the examples

    The law of [bcryptjs] that the properties below assume is satisfiable:
    the codec that keeps a password as its own hash obeys it.  It serves
    the concrete runs only. *)

Definition plainHash (salt password : string) : string := password.
Definition plainCompare (password hash : string) : bool := String.eqb password hash.

(** Serving a list of requests in order. *)
Fixpoint serve (bcryptHash : string → string → string)
    (bcryptCompare : string → string → bool) (envJwtSecret : option string)
    (rs : list Request) (w : World) : World :=
  match rs with
  | [] => w
  | r :: rest =>
      serve bcryptHash bcryptCompare envJwtSecret rest
        (fst (run (handle bcryptHash bcryptCompare envJwtSecret r) w))
  end.

(** A second codec for the examples: like [bcrypt], it reads the first 72
    characters of a password and no more. *)

Definition truncatingHash (salt password : string) : string :=
  String.substring 0 72 password.
Definition truncatingCompare (password hash : string) : bool :=
  String.eqb (String.substring 0 72 password) hash.

(** ** Sample runs

    One account, [a@x.com] with password [pw123], at the stages of its life:
    just signed up, verified, and with a reset pending. *)

Definition sampleSignup (wallet : JsValue) : SignupRequest :=
  mkSignupRequest (JsString "a@x.com") (JsString "pw123") wallet.

Definition worldSignedUp (wallet : JsValue) : World :=
  fst (run (signup plainHash "salt" "123456" (sampleSignup wallet)) emptyWorld).

Definition worldVerified (wallet : JsValue) : World :=
  fst (run (verifyEmail (mkVerifyEmailRequest (JsString "a@x.com") (JsString "123456")))
           (worldSignedUp wallet)).

(** A second sample: an email that is not in normal form. *)
Definition aliceSignup : SignupRequest :=
  mkSignupRequest (JsString "  Alice@X.COM ") (JsString "pw123") (JsString "0xabc").

Definition aliceSignedUp : World :=
  fst (run (signup plainHash "salt" "123456" aliceSignup) emptyWorld).

Definition aliceVerified : World :=
  fst (run (verifyEmail (mkVerifyEmailRequest (JsString "  Alice@X.COM ")
                                              (JsString "123456")))
           aliceSignedUp).




(** The sample record; only the flags, the codes and the wallet vary. *)
Definition sampleRecord (verified : bool) (pending reset : option string)
    (wallet : JsValue) : UserRecord :=
  mkUser "a@x.com" (plainHash "salt" "pw123") verified pending reset wallet.

Definition sampleRequestReset : RequestResetRequest :=
  mkRequestResetRequest (JsString "a@x.com").

Definition sampleConfirmReset (newPassword : string) : ConfirmResetRequest :=
  mkConfirmResetRequest (JsString "a@x.com") (JsString "654321") (JsString newPassword).

(** A reset requested for the account, starting from [w]. *)
Definition resetPending (w : World) : World :=
  fst (run (requestReset "654321" sampleRequestReset) w).

(** The reset confirmed with [newPassword]. *)
Definition afterReset (w : World) (newPassword : string) : World :=
  fst (run (confirmReset plainHash "salt2" (sampleConfirmReset newPassword))
           (resetPending w)).

(** A second account, [b@x.com], beside the verified sample account. *)
Definition worldTwoAccounts : World :=
  fst (run (signup plainHash "salt3" "222222"
              (mkSignupRequest (JsString "b@x.com") (JsString "pwb") JsUndefined))
           (worldVerified JsUndefined)).

Definition sampleLogin (password : string) : LoginRequest :=
  mkLoginRequest (JsString "a@x.com") (JsString password).

Definition sampleVerifyEmail (code : string) : VerifyEmailRequest :=
  mkVerifyEmailRequest (JsString "a@x.com") (JsString code).

(** ** Vocabulary for the properties of the routes as a whole *)

(** The email field of a request, as it came. *)
Definition requestEmail (r : Request) : JsValue :=
  match r with
  | Signup _ _ req => signupEmail req
  | VerifyEmail req => verifyEmailEmail req
  | Login _ req => loginEmail req
  | RequestReset _ req => requestResetEmail req
  | ConfirmReset _ req => confirmResetEmail req
  | NoBody _ => JsUndefined
  end.

(** The routes answer 200 or 201 when they did what was asked; every other
    status they use is an error. *)
Definition succeeded (r : Response) : bool :=
  (status r =? 200) || (status r =? 201).

Definition routeOf (r : Request) : Route :=
  match r with
  | Signup _ _ _ => SignupRoute
  | VerifyEmail _ => VerifyEmailRoute
  | Login _ _ => LoginRoute
  | RequestReset _ _ => RequestResetRoute
  | ConfirmReset _ _ => ConfirmResetRoute
  | NoBody route => route
  end.

(** Whether [req.body] is an object, so that the destructuring goes
    through. *)
Definition hasBody (r : Request) : bool :=
  match r with
  | NoBody _ => false
  | _ => true
  end.

(** The fields of the body that a route tests with [!field], once the
    destructuring went through. *)
Definition requiredFields (r : Request) : list JsValue :=
  match r with
  | Signup _ _ req => [signupEmail req; signupPassword req]
  | VerifyEmail req => [verifyEmailEmail req; verifyEmailCode req]
  | Login _ req => [loginEmail req; loginPassword req]
  | RequestReset _ req => [requestResetEmail req]
  | ConfirmReset _ req =>
      [confirmResetEmail req; confirmResetCode req; confirmResetNewPassword req]
  | NoBody _ => []
  end.

(** The answer of a route to a body that lacks one of them. *)
Definition missingFieldResponse (r : Request) : Response :=
  match routeOf r with
  | SignupRoute | LoginRoute =>
      mkResponse 400 (ErrorBody "Email and password are required")
  | VerifyEmailRoute => mkResponse 400 (ErrorBody "Email and code are required")
  | RequestResetRoute => mkResponse 400 (ErrorBody "Email is required")
  | ConfirmResetRoute =>
      mkResponse 400 (ErrorBody "Email, code, and new password are required")
  end.

Definition mailTo (m : Mail) : string :=
  match m with
  | VerificationMail to _ | ResetPasswordMail to _ => to
  end.

(** What login reads of a record. *)
Definition loginView (u : UserRecord) : string * string * bool * JsValue :=
  (email u, passwordHash u, isVerified u, walletAddress u).

(** ** Proof support *)

Ltac unfold_handler :=
  unfold run, handle, signup, verifyEmail, login, requestReset, confirmReset,
    hashPassword, comparePassword, normalizeEmail, storeHas, storeGet,
    storeSet, sendVerificationEmail, sendResetPasswordEmail, send, rejectIf,
    throw, respond, andThen, pure.

Ltac case_step :=
  match goal with
  | |- context [truthy ?v] => destruct (truthy v) eqn:?
  | |- context [match ?v with JsString _ => _ | _ => _ end] => is_var v; destruct v
  | |- context [bool_decide ?P] => destruct (bool_decide P) eqn:?
  | |- context [userStore ?w !! ?k] => destruct (userStore w !! k) eqn:?
  | |- context [if isVerified ?u then _ else _] => destruct (isVerified u) eqn:?
  | |- context [if negb (isVerified ?u) then _ else _] => destruct (isVerified u) eqn:?
  | |- context [strictNeq ?a ?b] => destruct (strictNeq a b) eqn:?
  | |- context [if negb (?f ?a ?b) then _ else _] => destruct (f a b) eqn:?
  end; cbn -[normalize insert lookup].

Ltac request_fields :=
  cbn [signupEmail signupPassword signupWalletAddress
       verifyEmailEmail verifyEmailCode loginEmail loginPassword
       requestResetEmail confirmResetEmail confirmResetCode
       confirmResetNewPassword].

Lemma truthy_string (s : string) : s ≠ "" → truthy (JsString s) = true.
Proof.
  intros Hs. simpl. destruct (String.eqb_spec s ""); [contradiction | reflexivity].
Qed.

Lemma generated_nonempty (c : string) : isGeneratedCode c = true → c ≠ "".
Proof. intros Hc ->. discriminate Hc. Qed.

Lemma generated_truthy (c : string) :
  isGeneratedCode c = true → truthy (JsString c) = true.
Proof. intros Hc. apply truthy_string, generated_nonempty, Hc. Qed.

Ltac side :=
  first [ assumption
        | apply generated_truthy; assumption
        | apply truthy_string; assumption ].

Lemma strictNeq_same (c : string) : strictNeq (Some c) (JsString c) = false.
Proof. simpl. now rewrite String.eqb_refl. Qed.

Lemma strictNeq_other (c d : string) : c ≠ d → strictNeq (Some c) (JsString d) = true.
Proof. intros Hcd. simpl. destruct (String.eqb_spec c d); [contradiction | reflexivity]. Qed.

Section RouteEquations.

Variable bcryptHash : string → string → string.
Variable bcryptCompare : string → string → bool.
Variable envJwtSecret : option string.

(** What login answers to a request that names an email and a password. *)
Lemma login_run now e p w :
  e ≠ "" → truthy p = true →
  run (login bcryptCompare envJwtSecret now (mkLoginRequest (JsString e) p)) w =
  match userStore w !! normalize e with
  | None => (w, InvalidCredentials)
  | Some u =>
      if isVerified u then
        match p with
        | JsString q =>
            if bcryptCompare q (passwordHash u)
            then (w, LoggedIn envJwtSecret now u)
            else (w, InvalidCredentials)
        | _ => (w, InternalError)
        end
      else (w, NotVerified)
  end.
Proof.
  intros He Hp. unfold_handler. cbn [loginEmail loginPassword].
  rewrite (truthy_string e He), Hp. cbn.
  destruct (userStore w !! normalize e) as [u|]; [|reflexivity].
  destruct (isVerified u); cbn; [|reflexivity].
  destruct p; try reflexivity.
  destruct (bcryptCompare s (passwordHash u)); reflexivity.
Qed.

(** A login request that lacks the email or the password. *)
Lemma login_missing now e p w :
  truthy e = false ∨ truthy p = false →
  run (login bcryptCompare envJwtSecret now (mkLoginRequest e p)) w =
  (w, MissingEmailOrPassword).
Proof.
  intros [H|H]; unfold_handler; cbn [loginEmail loginPassword]; rewrite H;
    [|rewrite orb_true_r]; reflexivity.
Qed.

Lemma verifyEmail_run e c w :
  e ≠ "" → truthy c = true →
  run (verifyEmail (mkVerifyEmailRequest (JsString e) c)) w =
  match userStore w !! normalize e with
  | None => (w, NotFound)
  | Some u =>
      if isVerified u then (w, AlreadyVerified)
      else if strictNeq (verificationCode u) c then (w, InvalidCode)
      else (mkWorld (<[normalize e := markVerified u]> (userStore w)) (outbox w),
            Verified)
  end.
Proof.
  intros He Hc. unfold_handler. cbn [verifyEmailEmail verifyEmailCode].
  rewrite (truthy_string e He), Hc. cbn.
  destruct (userStore w !! normalize e) as [u|]; [|reflexivity].
  destruct (isVerified u); cbn; [reflexivity|].
  destruct (strictNeq (verificationCode u) c); reflexivity.
Qed.

Lemma verifyEmail_missing e c w :
  truthy e = false ∨ truthy c = false →
  run (verifyEmail (mkVerifyEmailRequest e c)) w = (w, MissingEmailOrCode).
Proof.
  intros [H|H]; unfold_handler; cbn [verifyEmailEmail verifyEmailCode]; rewrite H;
    [|rewrite orb_true_r]; reflexivity.
Qed.

Lemma signup_run salt generated e p wallet w :
  e ≠ "" → p ≠ "" →
  run (signup bcryptHash salt generated
         (mkSignupRequest (JsString e) (JsString p) wallet)) w =
  match userStore w !! normalize e with
  | Some _ => (w, Conflict)
  | None =>
      (mkWorld
         (<[normalize e :=
              mkUser (normalize e) (bcryptHash salt p) false (Some generated)
                     None (orUndefined wallet)]> (userStore w))
         (outbox w ++ [VerificationMail (normalize e) generated]),
       Created)
  end.
Proof.
  intros He Hp. unfold_handler.
  cbn [signupEmail signupPassword signupWalletAddress].
  rewrite (truthy_string e He), (truthy_string p Hp). cbn.
  destruct (userStore w !! normalize e) as [u|] eqn:Hu.
  - rewrite bool_decide_eq_true_2 by eauto. reflexivity.
  - rewrite bool_decide_eq_false_2 by (intros [? ?]; congruence). reflexivity.
Qed.

Lemma requestReset_run generated e w :
  e ≠ "" →
  run (requestReset generated (mkRequestResetRequest (JsString e))) w =
  match userStore w !! normalize e with
  | Some u =>
      (mkWorld (<[normalize e := withResetCode generated u]> (userStore w))
               (outbox w ++ [ResetPasswordMail (normalize e) generated]),
       ResetRequested)
  | None => (w, ResetRequested)
  end.
Proof.
  intros He. unfold_handler. cbn [requestResetEmail].
  rewrite (truthy_string e He). cbn.
  destruct (userStore w !! normalize e) as [u|]; reflexivity.
Qed.

Lemma confirmReset_run salt e c p w :
  e ≠ "" → truthy c = true → truthy p = true →
  run (confirmReset bcryptHash salt
         (mkConfirmResetRequest (JsString e) c p)) w =
  match userStore w !! normalize e with
  | None => (w, NotFound)
  | Some u =>
      if strictNeq (resetCode u) c then (w, InvalidResetCode)
      else match p with
           | JsString q =>
               (mkWorld (<[normalize e := withPassword (bcryptHash salt q) u]>
                           (userStore w)) (outbox w),
                PasswordReset)
           | _ => (w, InternalError)
           end
  end.
Proof.
  intros He Hc Hp. unfold_handler.
  cbn [confirmResetEmail confirmResetCode confirmResetNewPassword].
  rewrite (truthy_string e He), Hc, Hp. cbn.
  destruct (userStore w !! normalize e) as [u|]; [|reflexivity].
  destruct (strictNeq (resetCode u) c); cbn; [reflexivity|].
  destruct p; reflexivity.
Qed.

End RouteEquations.

(** ** The store invariant holds in every reachable world *)

Section Invariant.

Variable bcryptHash : string → string → string.
Variable bcryptCompare : string → string → bool.
Variable envJwtSecret : option string.

Lemma storeOk_insert w key u out :
  storeOk w → userOk key u = true →
  storeOk (mkWorld (<[key := u]> (userStore w)) out).
Proof. intros Hw Hu. unfold storeOk. cbn. apply map_Forall_insert_2; assumption. Qed.

Lemma storeOk_lookup w key u :
  storeOk w → userStore w !! key = Some u → userOk key u = true.
Proof. intros Hw Hu. exact (Hw key u Hu). Qed.

Lemma handle_storeOk r w :
  storeOk w → generatorOk r = true →
  storeOk (fst (run (handle bcryptHash bcryptCompare envJwtSecret r) w)).
Proof.
  intros Hw Hr.
  destruct r as [salt gen [e p wal] | [e c] | now [e p] | gen [e] | salt [e c p] | route];
    unfold_handler; request_fields.
  all: repeat case_step; try assumption.
  all: apply storeOk_insert; [assumption|].
  all: cbn in Hr;
    try match goal with
        | Hu : userStore ?w0 !! ?k = Some ?u, Hw0 : storeOk ?w0 |- _ =>
            pose proof (storeOk_lookup w0 k u Hw0 Hu) as Hok; revert Hok
        end;
    unfold userOk; cbn [email passwordHash isVerified verificationCode resetCode];
    rewrite ?andb_true_iff, ?String.eqb_refl, ?Hr.
  - auto.
  - intros [[-> _] ->]. auto.
  - intros [[-> ->] _]. auto.
  - intros [[-> ->] _]. auto.
Qed.

Lemma reachable_storeOk w :
  reachable bcryptHash bcryptCompare envJwtSecret w → storeOk w.
Proof.
  induction 1 as [|w r _ IH Hr].
  - unfold storeOk. cbn. apply map_Forall_empty.
  - apply handle_storeOk; assumption.
Qed.

(** In a reachable world an unverified record holds a generated code. *)
Lemma reachable_pending_code w key u :
  reachable bcryptHash bcryptCompare envJwtSecret w →
  userStore w !! key = Some u → isVerified u = false →
  ∃ c, verificationCode u = Some c ∧ isGeneratedCode c = true.
Proof.
  intros Hw Hu Hv.
  pose proof (storeOk_lookup w key u (reachable_storeOk w Hw) Hu) as Hok.
  unfold userOk in Hok. rewrite Hv in Hok.
  destruct (verificationCode u) as [c|].
  - exists c. split; [reflexivity|].
    apply andb_true_iff in Hok as [Hok _]. apply andb_true_iff in Hok as [_ Hc].
    exact Hc.
  - rewrite andb_false_r in Hok. discriminate Hok.
Qed.


(** A request leaves the store as it is or rewrites one record, and a
    rewritten record keeps its email and its wallet address. *)
Lemma handle_store_shape r w :
  userStore (fst (run (handle bcryptHash bcryptCompare envJwtSecret r) w)) = userStore w
  ∨ ∃ k u',
      userStore (fst (run (handle bcryptHash bcryptCompare envJwtSecret r) w))
        = <[k := u']> (userStore w)
      ∧ ∀ u, userStore w !! k = Some u →
             email u' = email u ∧ walletAddress u' = walletAddress u.
Proof.
  destruct r as [salt gen [e p wal] | [e c] | now [e p] | gen [e] | salt [e c p] | route];
    unfold_handler; request_fields.
  all: repeat case_step; auto.
  all: right; do 2 eexists; (split; [reflexivity|]); intros u1 Hu1.
  all: match goal with
       | H1 : userStore ?w0 !! ?k = _, H2 : userStore ?w0 !! ?k = _ |- _ =>
           rewrite H1 in H2; try discriminate H2; injection H2 as <-
       | H1 : bool_decide (is_Some (userStore ?w0 !! ?k)) = false,
         H2 : userStore ?w0 !! ?k = Some _ |- _ =>
           apply bool_decide_eq_false_1 in H1; exfalso; apply H1; eauto
       end.
  all: split; reflexivity.
Qed.

Lemma handle_keeps_wallet r w key u :
  userStore w !! key = Some u →
  ∃ u', userStore (fst (run (handle bcryptHash bcryptCompare envJwtSecret r) w)) !! key
        = Some u'
        ∧ email u' = email u ∧ walletAddress u' = walletAddress u.
Proof.
  intros Hu.
  destruct (handle_store_shape r w) as [-> | (k & u' & -> & Hsame)]; [eauto|].
  destruct (decide (k = key)) as [->|Hne].
  - rewrite lookup_insert_eq. eauto.
  - rewrite lookup_insert_ne by exact Hne. eauto.
Qed.

Lemma serve_keeps_wallet rs w key u :
  userStore w !! key = Some u →
  ∃ u', userStore (serve bcryptHash bcryptCompare envJwtSecret rs w) !! key = Some u'
        ∧ email u' = email u ∧ walletAddress u' = walletAddress u.
Proof.
  revert w u. induction rs as [|r rs IH]; intros w u Hu; cbn [serve].
  - eauto.
  - destruct (handle_keeps_wallet r w key u Hu) as (u1 & Hu1 & He1 & Hw1).
    destruct (IH _ u1 Hu1) as (u2 & Hu2 & He2 & Hw2).
    exists u2. repeat split; congruence.
Qed.

End Invariant.

(** ** Normalisation of a blank email *)

Lemma lowerCodeUnit_whiteSpace (c : ascii) :
  isWhiteSpace c = true → lowerCodeUnit c = c.
Proof.
  destruct c as [b0 b1 b2 b3 b4 b5 b6 b7].
  destruct b0, b1, b2, b3, b4, b5, b6, b7; intros H; (reflexivity || discriminate H).
Qed.

Lemma toLowerCase_allWhiteSpace (s : string) :
  allWhiteSpace s = true → toLowerCase s = s.
Proof.
  induction s as [|c s IH]; cbn [allWhiteSpace toLowerCase]; [reflexivity|].
  intros H. apply andb_true_iff in H as [Hc Hs].
  rewrite (lowerCodeUnit_whiteSpace c Hc), (IH Hs). reflexivity.
Qed.

Lemma trimStart_allWhiteSpace (s : string) :
  allWhiteSpace s = true → trimStart s = "".
Proof.
  induction s as [|c s IH]; cbn [allWhiteSpace trimStart]; [reflexivity|].
  intros H. apply andb_true_iff in H as [Hc Hs]. rewrite Hc. exact (IH Hs).
Qed.

Lemma normalize_allWhiteSpace (s : string) :
  allWhiteSpace s = true → normalize s = "".
Proof.
  intros H. unfold normalize, trim.
  rewrite (toLowerCase_allWhiteSpace s H), (trimStart_allWhiteSpace s H).
  reflexivity.
Qed.

Example normalize_sample : normalize "  Alice@X.COM " = "alice@x.com".
Proof. reflexivity. Qed.

(** ** The sample codec obeys the contract *)

Lemma plain_acceptsOwn : acceptsOwn plainHash plainCompare.
Proof. intros salt p. apply String.eqb_refl. Qed.

Lemma truncating_acceptsOwn : acceptsOwn truncatingHash truncatingCompare.
Proof. intros salt p. apply String.eqb_refl. Qed.

(** ** Login *)

Section LoginProperties.

Variable bcryptHash : string → string → string.
Variable bcryptCompare : string → string → bool.
Variable envJwtSecret : option string.

(** C1, as amended.  An unverified account cannot log in: every login that
    names the account and supplies a password (a truthy value, matching or
    not) is answered NotVerified, 403, and leaves the world as it was; for
    any password field at all, missing or empty included, the answer is
    neither a success nor InvalidCredentials.  In particular signup
    followed at once by login with the password just set is answered
    NotVerified. *)
Theorem login_unverified_rejected w e u now :
  e ≠ "" →
  userStore w !! normalize e = Some u →
  isVerified u = false →
  (∀ p, truthy p = true →
     run (login bcryptCompare envJwtSecret now (mkLoginRequest (JsString e) p)) w
     = (w, NotVerified))
  ∧ (∀ p,
     let r := snd (run (login bcryptCompare envJwtSecret now
                          (mkLoginRequest (JsString e) p)) w) in
     status r ≠ 200 ∧ r ≠ InvalidCredentials)
  ∧ (∀ w0 salt generated p wallet,
     p ≠ "" → userStore w0 !! normalize e = None →
     let w1 := fst (run (signup bcryptHash salt generated
                           (mkSignupRequest (JsString e) (JsString p) wallet)) w0) in
     run (login bcryptCompare envJwtSecret now
            (mkLoginRequest (JsString e) (JsString p))) w1
     = (w1, NotVerified)).
Proof.
  intros He Hu Hv. split; [|split].
  - intros p Hp. rewrite login_run by assumption. rewrite Hu, Hv. reflexivity.
  - intros p. cbv zeta. destruct (truthy p) eqn:Hp.
    + rewrite login_run by assumption. rewrite Hu, Hv. cbn. split; discriminate.
    + rewrite login_missing by (right; exact Hp). cbn. split; discriminate.
  - intros w0 salt generated p wallet Hp Hnone. cbv zeta.
    rewrite signup_run by assumption. rewrite Hnone. cbn [fst].
    rewrite login_run by side.
    cbn [userStore]. rewrite lookup_insert_eq. reflexivity.
Qed.


End LoginProperties.

(** ** Email verification *)

Section VerifyEmailProperties.

Variable bcryptHash : string → string → string.
Variable bcryptCompare : string → string → bool.
Variable envJwtSecret : option string.

(** C4, as amended.  Verification with the stored code succeeds exactly once.  In a
    reachable world an unverified account holds a code [c]; the call with
    that code is answered 200 and stores the record with [isVerified] set
    and [verificationCode] cleared, the other fields as they were; after it
    every call for the same account that names a code, the same code
    included, is answered AlreadyVerified and changes nothing; a call whose
    code is missing or empty is answered InvalidInput; and no call for the
    account, with whatever code field, is answered 200 again. *)
Theorem verifyEmail_once w e u :
  reachable bcryptHash bcryptCompare envJwtSecret w →
  e ≠ "" →
  userStore w !! normalize e = Some u →
  isVerified u = false →
  ∃ c w1,
    verificationCode u = Some c
    ∧ run (verifyEmail (mkVerifyEmailRequest (JsString e) (JsString c))) w
      = (w1, Verified)
    ∧ w1 = mkWorld (<[normalize e :=
                      mkUser (email u) (passwordHash u) true None
                             (resetCode u) (walletAddress u)]> (userStore w))
                   (outbox w)
    ∧ run (verifyEmail (mkVerifyEmailRequest (JsString e) (JsString c))) w1
      = (w1, AlreadyVerified)
    ∧ (∀ e2 c2,
        e2 ≠ "" → normalize e2 = normalize e → truthy c2 = true →
        run (verifyEmail (mkVerifyEmailRequest (JsString e2) c2)) w1
        = (w1, AlreadyVerified))
    ∧ (∀ e2 c2,
        e2 ≠ "" → normalize e2 = normalize e →
        fst (run (verifyEmail (mkVerifyEmailRequest (JsString e2) c2)) w1) = w1
        ∧ status (snd (run (verifyEmail (mkVerifyEmailRequest (JsString e2) c2)) w1))
          ≠ 200)
    ∧ (∀ e2 c2,
        truthy c2 = false →
        run (verifyEmail (mkVerifyEmailRequest e2 c2)) w1 = (w1, MissingEmailOrCode)).
Proof.
  intros Hw He Hu Hv.
  destruct (reachable_pending_code _ _ _ w _ u Hw Hu Hv) as (c & Hc & Hgen).
  pose proof (generated_truthy c Hgen) as Hct.
  assert (Hagain : ∀ e2 c2,
    e2 ≠ "" → normalize e2 = normalize e → truthy c2 = true →
    run (verifyEmail (mkVerifyEmailRequest (JsString e2) c2))
        (mkWorld (<[normalize e := markVerified u]> (userStore w)) (outbox w))
    = (mkWorld (<[normalize e := markVerified u]> (userStore w)) (outbox w),
       AlreadyVerified)).
  { intros e2 c2 He2 Hsame Hc2. rewrite verifyEmail_run by assumption.
    cbn [userStore]. rewrite Hsame, lookup_insert_eq. reflexivity. }
  exists c, (mkWorld (<[normalize e := markVerified u]> (userStore w)) (outbox w)).
  split; [exact Hc|]. split; [|split; [reflexivity|split; [|split; [|split]]]].
  - rewrite verifyEmail_run by assumption.
    rewrite Hu, Hv, Hc, strictNeq_same. reflexivity.
  - apply Hagain; [assumption | reflexivity | assumption].
  - exact Hagain.
  - intros e2 c2 He2 Hsame. destruct (truthy c2) eqn:Hc2.
    + rewrite Hagain by assumption. split; [reflexivity | discriminate].
    + rewrite verifyEmail_missing by (right; exact Hc2).
      split; [reflexivity | discriminate].
  - intros e2 c2 Hc2. apply verifyEmail_missing. right. exact Hc2.
Qed.

(** C5, as amended.  For an unverified account and a code field that is
    supplied (truthy) and is not the stored code, verification is answered
    InvalidCode and the world, the stored record with it, is unchanged.  A
    missing or empty code is answered InvalidInput, with the world unchanged
    as well. *)
Theorem verifyEmail_wrong_code w e u code :
  e ≠ "" →
  userStore w !! normalize e = Some u →
  isVerified u = false →
  strictNeq (verificationCode u) code = true →
  (truthy code = true →
     run (verifyEmail (mkVerifyEmailRequest (JsString e) code)) w = (w, InvalidCode))
  ∧ (truthy code = false →
     run (verifyEmail (mkVerifyEmailRequest (JsString e) code)) w
     = (w, MissingEmailOrCode))
  ∧ userStore (fst (run (verifyEmail (mkVerifyEmailRequest (JsString e) code)) w))
      !! normalize e = Some u.
Proof.
  intros He Hu Hv Hneq.
  assert (H1 : truthy code = true →
    run (verifyEmail (mkVerifyEmailRequest (JsString e) code)) w = (w, InvalidCode)).
  { intros Hc. rewrite verifyEmail_run by assumption. rewrite Hu, Hv, Hneq. reflexivity. }
  assert (H2 : truthy code = false →
    run (verifyEmail (mkVerifyEmailRequest (JsString e) code)) w
    = (w, MissingEmailOrCode)).
  { intros Hc. apply verifyEmail_missing. right. exact Hc. }
  split; [exact H1 | split; [exact H2 |]].
  destruct (truthy code) eqn:Hc; [rewrite H1 | rewrite H2]; auto.
Qed.

End VerifyEmailProperties.

(** ** Password reset *)

Section ResetProperties.

Variable bcryptHash : string → string → string.
Variable bcryptCompare : string → string → bool.
Variable envJwtSecret : option string.

(** C3.  A reset request that names an email gets one and the same answer,
    200 with the same message, whether or not the normalised email has an
    account.  When it has one, the world returned with the answer holds the
    record with the generated code as its [resetCode], and the code went
    out by mail; when it has none, the world is unchanged. *)
Theorem requestReset_same_answer w e generated :
  e ≠ "" →
  snd (run (requestReset generated (mkRequestResetRequest (JsString e))) w)
  = ResetRequested
  ∧ status ResetRequested = 200
  ∧ match userStore w !! normalize e with
    | Some u =>
        fst (run (requestReset generated (mkRequestResetRequest (JsString e))) w)
        = mkWorld (<[normalize e := withResetCode generated u]> (userStore w))
                  (outbox w ++ [ResetPasswordMail (normalize e) generated])
        ∧ resetCode (withResetCode generated u) = Some generated
    | None =>
        fst (run (requestReset generated (mkRequestResetRequest (JsString e))) w) = w
    end.
Proof.
  intros He. rewrite requestReset_run by assumption.
  destruct (userStore w !! normalize e) as [u|]; cbn; auto.
Qed.

(** C8.  A second reset request replaces the pending code.  For an existing
    account and two generated codes, after the two requests the record
    holds the second code; a confirmation with the second code and a new
    password succeeds, and a confirmation with the first code, when the two
    differ, is answered InvalidCode (400, "Invalid reset code") and changes
    nothing. *)
Theorem requestReset_twice w e u c1 c2 salt p :
  e ≠ "" → p ≠ "" →
  userStore w !! normalize e = Some u →
  isGeneratedCode c1 = true →
  isGeneratedCode c2 = true →
  let w1 := fst (run (requestReset c1 (mkRequestResetRequest (JsString e))) w) in
  let w2 := fst (run (requestReset c2 (mkRequestResetRequest (JsString e))) w1) in
  userStore w1 !! normalize e = Some (withResetCode c1 u)
  ∧ userStore w2 !! normalize e = Some (withResetCode c2 u)
  ∧ run (confirmReset bcryptHash salt
           (mkConfirmResetRequest (JsString e) (JsString c2) (JsString p))) w2
    = (mkWorld (<[normalize e := withPassword (bcryptHash salt p) u]> (userStore w2))
               (outbox w2),
       PasswordReset)
  ∧ (c1 ≠ c2 →
     run (confirmReset bcryptHash salt
            (mkConfirmResetRequest (JsString e) (JsString c1) (JsString p))) w2
     = (w2, InvalidResetCode)).
Proof.
  intros He Hp Hu Hc1 Hc2 w1 w2.
  assert (H1 : userStore w1 !! normalize e = Some (withResetCode c1 u)).
  { subst w1. rewrite requestReset_run by assumption. rewrite Hu. cbn [fst userStore].
    apply lookup_insert_eq. }
  assert (H2 : userStore w2 !! normalize e = Some (withResetCode c2 u)).
  { subst w2. rewrite requestReset_run by assumption. rewrite H1. cbn [fst userStore].
    apply lookup_insert_eq. }
  split; [exact H1 | split; [exact H2 | split]].
  - rewrite confirmReset_run
      by side.
    rewrite H2. cbn [resetCode withResetCode]. rewrite strictNeq_same. reflexivity.
  - intros Hne.
    rewrite confirmReset_run
      by side.
    rewrite H2. cbn [resetCode withResetCode].
    rewrite strictNeq_other by congruence. reflexivity.
Qed.


End ResetProperties.

(** ** The life of an account, from signup on *)

Section LifeCycleProperties.

Variable bcryptHash : string → string → string.
Variable bcryptCompare : string → string → bool.
Variable envJwtSecret : option string.

(** A login answered 200 named an email with a stored record, and the
    answer is the one made from that record. *)
Lemma login_success_inv now e p w :
  status (snd (run (login bcryptCompare envJwtSecret now (mkLoginRequest e p)) w)) = 200 →
  ∃ s u, e = JsString s
         ∧ userStore w !! normalize s = Some u
         ∧ run (login bcryptCompare envJwtSecret now (mkLoginRequest e p)) w
           = (w, LoggedIn envJwtSecret now u).
Proof.
  unfold_handler; request_fields.
  repeat case_step; try discriminate.
  intros _. eauto.
Qed.


(** Signup of a fresh email, then verification with the generated code,
    then login with the password of the signup: the three runs. *)
Lemma fresh_account_runs w e p wallet salt generated now :
  e ≠ "" → p ≠ "" →
  isGeneratedCode generated = true →
  userStore w !! normalize e = None →
  let u1 := mkUser (normalize e) (bcryptHash salt p) false (Some generated) None
                   (orUndefined wallet) in
  let w1 := mkWorld (<[normalize e := u1]> (userStore w))
                    (outbox w ++ [VerificationMail (normalize e) generated]) in
  let w2 := mkWorld (<[normalize e := markVerified u1]> (userStore w1)) (outbox w1) in
  run (signup bcryptHash salt generated
         (mkSignupRequest (JsString e) (JsString p) wallet)) w = (w1, Created)
  ∧ run (verifyEmail (mkVerifyEmailRequest (JsString e) (JsString generated))) w1
    = (w2, Verified)
  ∧ (acceptsOwn bcryptHash bcryptCompare →
     run (login bcryptCompare envJwtSecret now
            (mkLoginRequest (JsString e) (JsString p))) w2
     = (w2, LoggedIn envJwtSecret now (markVerified u1))).
Proof.
  intros He Hp Hgen Hnone u1 w1 w2. split; [|split].
  - rewrite signup_run by assumption. rewrite Hnone. reflexivity.
  - rewrite verifyEmail_run by side. subst w1. cbn [userStore].
    rewrite lookup_insert_eq. subst u1. cbn [isVerified verificationCode].
    rewrite strictNeq_same. reflexivity.
  - intros Hown. rewrite login_run by side. subst w2. cbn [userStore].
    rewrite lookup_insert_eq. subst u1. cbn [markVerified isVerified passwordHash].
    rewrite Hown. reflexivity.
Qed.

(** C6.  Signup, verification with the code signup stored, then login with
    the same password all succeed, for an email and a password that are
    both supplied and an email not yet registered; the token of the login
    answer has the normalised email, [email.toLowerCase().trim()], as its
    subject. *)
Theorem signup_verify_login w e p wallet salt generated now :
  acceptsOwn bcryptHash bcryptCompare →
  e ≠ "" → p ≠ "" →
  isGeneratedCode generated = true →
  userStore w !! normalize e = None →
  let w1 := fst (run (signup bcryptHash salt generated
                        (mkSignupRequest (JsString e) (JsString p) wallet)) w) in
  let w2 := fst (run (verifyEmail
                        (mkVerifyEmailRequest (JsString e) (JsString generated))) w1) in
  snd (run (signup bcryptHash salt generated
              (mkSignupRequest (JsString e) (JsString p) wallet)) w) = Created
  ∧ (∃ u1, userStore w1 !! normalize e = Some u1
           ∧ verificationCode u1 = Some generated)
  ∧ snd (run (verifyEmail
                (mkVerifyEmailRequest (JsString e) (JsString generated))) w1) = Verified
  ∧ ∃ token,
      run (login bcryptCompare envJwtSecret now
             (mkLoginRequest (JsString e) (JsString p))) w2
      = (w2, mkResponse 200 (LoginBody token (normalize e) (orUndefined wallet)))
      ∧ sub token = normalize e
      ∧ sub token = trim (toLowerCase e)
      ∧ exp token = iat token + 7200.
Proof.
  intros Hown He Hp Hgen Hnone.
  destruct (fresh_account_runs w e p wallet salt generated now He Hp Hgen Hnone)
    as (H1 & H2 & H3).
  cbv zeta. rewrite H1. cbn [fst snd]. rewrite H2. cbn [fst snd].
  split; [reflexivity|].
  split; [eexists; split; [apply lookup_insert_eq | reflexivity]|].
  split; [reflexivity|].
  exists (jwtSign envJwtSecret now (normalize e) (orUndefined wallet)).
  split; [|repeat split; reflexivity].
  rewrite (H3 Hown). reflexivity.
Qed.

(** C9, as amended.  A wallet address that signup receives as a non-empty
    string (more generally, as any truthy value) is stored on the record as
    it came, and whatever requests are served afterwards, every login for
    that account that is answered 200 carries the same value both in the
    token and in the [walletAddress] field of the answer.  Such a login
    exists: after verification, login with the password of signup is
    answered 200. *)
Theorem walletAddress_passthrough w e p wallet salt generated :
  e ≠ "" → p ≠ "" →
  truthy wallet = true →
  userStore w !! normalize e = None →
  let w1 := fst (run (signup bcryptHash salt generated
                        (mkSignupRequest (JsString e) (JsString p) wallet)) w) in
  (∃ u1, userStore w1 !! normalize e = Some u1 ∧ walletAddress u1 = wallet)
  ∧ (∀ rs now e' p',
       normalize e' = normalize e →
       let r := snd (run (login bcryptCompare envJwtSecret now
                            (mkLoginRequest (JsString e') p'))
                         (serve bcryptHash bcryptCompare envJwtSecret rs w1)) in
       status r = 200 →
       ∃ token, body r = LoginBody token (normalize e) wallet
                ∧ tokenWalletAddress token = wallet)
  ∧ (acceptsOwn bcryptHash bcryptCompare →
     isGeneratedCode generated = true →
     ∀ now,
       status (snd (run (login bcryptCompare envJwtSecret now
                           (mkLoginRequest (JsString e) (JsString p)))
                        (serve bcryptHash bcryptCompare envJwtSecret
                           [VerifyEmail (mkVerifyEmailRequest (JsString e)
                                                              (JsString generated))]
                           w1))) = 200).
Proof.
  intros He Hp Hwal Hnone w1.
  assert (Hu1 : userStore w1 !! normalize e
                = Some (mkUser (normalize e) (bcryptHash salt p) false
                               (Some generated) None wallet)).
  { subst w1. rewrite signup_run by assumption. rewrite Hnone. cbn [fst userStore].
    unfold orUndefined. rewrite Hwal. apply lookup_insert_eq. }
  split; [eexists; split; [exact Hu1 | reflexivity]|]. split.
  - intros rs now e' p' Hsame r Hok.
    destruct (login_success_inv _ _ _ _ Hok) as (s & u & Hs & Hu & Hrun).
    injection Hs as <-.
    destruct (serve_keeps_wallet bcryptHash bcryptCompare envJwtSecret rs w1
                (normalize e) _ Hu1) as (u2 & Hu2 & Hemail & Hwallet).
    rewrite Hsame, Hu2 in Hu. injection Hu as <-.
    subst r. rewrite Hrun. cbn [snd]. unfold LoggedIn. cbn [body].
    rewrite Hemail, Hwallet. cbn [email walletAddress].
    eexists. split; reflexivity.
  - intros Hown Hgen now.
    destruct (fresh_account_runs w e p wallet salt generated now He Hp Hgen Hnone)
      as (H1 & H2 & H3).
    cbn [serve handle]. subst w1. rewrite H1. cbn [fst]. rewrite H2. cbn [fst].
    rewrite (H3 Hown). reflexivity.
Qed.


End LifeCycleProperties.

(** ** Where the design says more than the routes do *)

(** C1: a login for an unverified account whose password field is the empty
    string is answered InvalidInput, status 400, not NotVerified. *)
Lemma login_unverified_empty_password :
  userStore (worldSignedUp JsUndefined) !! normalize "a@x.com"
  = Some (sampleRecord false (Some "123456") None JsUndefined)
  ∧ run (login plainCompare None 0 (sampleLogin "")) (worldSignedUp JsUndefined)
    = (worldSignedUp JsUndefined, MissingEmailOrPassword)
  ∧ MissingEmailOrPassword ≠ NotVerified.
Proof. split; [reflexivity | split; [reflexivity | discriminate]]. Qed.


(** C4: after the account was verified with its code, a further call for
    it whose code field is the empty string is answered InvalidInput, not
    AlreadyVerified. *)
Lemma verifyEmail_second_call_empty_code :
  run (verifyEmail (sampleVerifyEmail "123456")) (worldSignedUp JsUndefined)
  = (worldVerified JsUndefined, Verified)
  ∧ run (verifyEmail (sampleVerifyEmail "")) (worldVerified JsUndefined)
    = (worldVerified JsUndefined, MissingEmailOrCode)
  ∧ MissingEmailOrCode ≠ AlreadyVerified.
Proof. split; [reflexivity | split; [reflexivity | discriminate]]. Qed.

(** C5: for an unverified account, the empty string is a code other than
    the stored one, and verification answers InvalidInput, not InvalidCode. *)
Lemma verifyEmail_empty_code :
  userStore (worldSignedUp JsUndefined) !! normalize "a@x.com"
  = Some (sampleRecord false (Some "123456") None JsUndefined)
  ∧ strictNeq (Some "123456") (JsString "") = true
  ∧ run (verifyEmail (sampleVerifyEmail "")) (worldSignedUp JsUndefined)
    = (worldSignedUp JsUndefined, MissingEmailOrCode)
  ∧ MissingEmailOrCode ≠ InvalidCode.
Proof.
  split; [reflexivity | split; [reflexivity | split; [reflexivity | discriminate]]].
Qed.


(** C9: the empty string given as wallet address is stored as [undefined],
    and login returns [undefined], in the token and in the answer. *)
Lemma walletAddress_empty_string :
  userStore (worldSignedUp (JsString "")) !! normalize "a@x.com"
  = Some (sampleRecord false (Some "123456") None JsUndefined)
  ∧ snd (run (login plainCompare None 0 (sampleLogin "pw123"))
             (worldVerified (JsString "")))
    = mkResponse 200
        (LoginBody (mkToken "a@x.com" JsUndefined 0 7200
                            "default-secret-change-in-production")
                   "a@x.com" JsUndefined)
  ∧ JsUndefined ≠ JsString "".
Proof. split; [reflexivity | split; [reflexivity | discriminate]]. Qed.

(** ** The properties at the sample account *)

Lemma worldSignedUp_reachable wallet :
  reachable plainHash plainCompare None (worldSignedUp wallet).
Proof.
  exact (reachable_serve plainHash plainCompare None emptyWorld
           (Signup "salt" "123456" (sampleSignup wallet))
           (reachable_start _ _ _) eq_refl).
Defined.

Lemma worldVerified_reachable wallet :
  reachable plainHash plainCompare None (worldVerified wallet).
Proof.
  exact (reachable_serve plainHash plainCompare None (worldSignedUp wallet)
           (VerifyEmail (sampleVerifyEmail "123456"))
           (worldSignedUp_reachable wallet) eq_refl).
Defined.

Lemma resetPending_reachable :
  reachable plainHash plainCompare None (resetPending (worldVerified JsUndefined)).
Proof.
  exact (reachable_serve plainHash plainCompare None (worldVerified JsUndefined)
           (RequestReset "654321" sampleRequestReset)
           (worldVerified_reachable JsUndefined) eq_refl).
Defined.

Lemma login_unverified_rejected_sample :
  run (login plainCompare None 0 (sampleLogin "pw123")) (worldSignedUp JsUndefined)
  = (worldSignedUp JsUndefined, NotVerified).
Proof.
  refine (proj1 (login_unverified_rejected plainHash plainCompare None
                   (worldSignedUp JsUndefined) "a@x.com"
                   (sampleRecord false (Some "123456") None JsUndefined)
                   0 _ _ _) (JsString "pw123") _).
  - discriminate.
  - reflexivity.
  - reflexivity.
  - reflexivity.
Defined.


Lemma requestReset_same_answer_sample :
  snd (run (requestReset "654321" sampleRequestReset) (worldVerified JsUndefined))
  = ResetRequested
  ∧ snd (run (requestReset "654321" sampleRequestReset) emptyWorld) = ResetRequested.
Proof.
  split.
  - refine (proj1 (requestReset_same_answer (worldVerified JsUndefined)
                     "a@x.com" "654321" _)).
    discriminate.
  - refine (proj1 (requestReset_same_answer emptyWorld "a@x.com" "654321" _)).
    discriminate.
Defined.

Lemma verifyEmail_once_sample :
  ∃ c w1,
    verificationCode (sampleRecord false (Some "123456") None JsUndefined)
    = Some c
    ∧ run (verifyEmail (mkVerifyEmailRequest (JsString "a@x.com") (JsString c)))
          (worldSignedUp JsUndefined)
      = (w1, Verified)
    ∧ run (verifyEmail (mkVerifyEmailRequest (JsString "a@x.com") (JsString c))) w1
      = (w1, AlreadyVerified).
Proof.
  destruct (verifyEmail_once plainHash plainCompare None
              (worldSignedUp JsUndefined) "a@x.com"
              (sampleRecord false (Some "123456") None JsUndefined))
    as (c & w1 & Hc & Hfirst & _ & Hsecond & _).
  - exact (worldSignedUp_reachable JsUndefined).
  - discriminate.
  - reflexivity.
  - reflexivity.
  - exists c, w1. split; [exact Hc | split; [exact Hfirst | exact Hsecond]].
Defined.

Lemma verifyEmail_wrong_code_sample :
  run (verifyEmail (sampleVerifyEmail "000000")) (worldSignedUp JsUndefined)
  = (worldSignedUp JsUndefined, InvalidCode).
Proof.
  refine (proj1 (verifyEmail_wrong_code (worldSignedUp JsUndefined) "a@x.com"
                   (sampleRecord false (Some "123456") None JsUndefined)
                   (JsString "000000") _ _ _ _) _).
  - discriminate.
  - reflexivity.
  - reflexivity.
  - reflexivity.
  - reflexivity.
Defined.

Lemma signup_verify_login_sample :
  snd (run (signup plainHash "salt" "123456" aliceSignup) emptyWorld) = Created
  ∧ snd (run (verifyEmail (mkVerifyEmailRequest (JsString "  Alice@X.COM ")
                                                (JsString "123456")))
             aliceSignedUp) = Verified
  ∧ ∃ token,
      run (login plainCompare None 0
             (mkLoginRequest (JsString "  Alice@X.COM ") (JsString "pw123")))
          aliceVerified
      = (aliceVerified,
         mkResponse 200 (LoginBody token "alice@x.com" (JsString "0xabc")))
      ∧ sub token = "alice@x.com".
Proof.
  destruct (signup_verify_login plainHash plainCompare None emptyWorld
              "  Alice@X.COM " "pw123" (JsString "0xabc") "salt" "123456" 0)
    as (H1 & _ & H2 & token & H3 & Hsub & _).
  - exact plain_acceptsOwn.
  - discriminate.
  - discriminate.
  - reflexivity.
  - reflexivity.
  - split; [exact H1 | split; [exact H2 | exists token; split; [exact H3 | exact Hsub]]].
Defined.


Lemma requestReset_twice_sample :
  userStore (fst (run (requestReset "222222" sampleRequestReset)
                      (fst (run (requestReset "111111" sampleRequestReset)
                                (worldVerified JsUndefined)))))
    !! normalize "a@x.com"
  = Some (withResetCode "222222" (sampleRecord true None None JsUndefined))
  ∧ snd (run (confirmReset plainHash "salt2"
                (mkConfirmResetRequest (JsString "a@x.com") (JsString "111111")
                                       (JsString "newpw")))
             (fst (run (requestReset "222222" sampleRequestReset)
                       (fst (run (requestReset "111111" sampleRequestReset)
                                 (worldVerified JsUndefined))))))
    = InvalidResetCode.
Proof.
  destruct (requestReset_twice plainHash (worldVerified JsUndefined) "a@x.com"
              (sampleRecord true None None JsUndefined)
              "111111" "222222" "salt2" "newpw")
    as (_ & Hsecond & _ & Hfirst).
  - discriminate.
  - discriminate.
  - reflexivity.
  - reflexivity.
  - reflexivity.
  - split; [exact Hsecond|].
    exact (f_equal snd (Hfirst ltac:(discriminate))).
Defined.

Lemma walletAddress_passthrough_sample :
  ∃ token,
    body (snd (run (login plainCompare None 0 (sampleLogin "pw123"))
                   (worldVerified (JsString "0xabc"))))
    = LoginBody token "a@x.com" (JsString "0xabc")
    ∧ tokenWalletAddress token = JsString "0xabc".
Proof.
  destruct (walletAddress_passthrough plainHash plainCompare None emptyWorld
              "a@x.com" "pw123" (JsString "0xabc") "salt" "123456")
    as (_ & Hlogin & _).
  - discriminate.
  - discriminate.
  - reflexivity.
  - reflexivity.
  - exact (Hlogin [VerifyEmail (sampleVerifyEmail "123456")] 0 "a@x.com"
             (JsString "pw123") eq_refl eq_refl).
Defined.



(** * Further properties of the routes *)

(** ** Normal forms of emails *)

Lemma lowerCodeUnit_idem (c : ascii) :
  lowerCodeUnit (lowerCodeUnit c) = lowerCodeUnit c.
Proof.
  destruct c as [b0 b1 b2 b3 b4 b5 b6 b7].
  destruct b0, b1, b2, b3, b4, b5, b6, b7; reflexivity.
Qed.

Lemma isWhiteSpace_lowerCodeUnit (c : ascii) :
  isWhiteSpace (lowerCodeUnit c) = isWhiteSpace c.
Proof.
  destruct c as [b0 b1 b2 b3 b4 b5 b6 b7].
  destruct b0, b1, b2, b3, b4, b5, b6, b7; reflexivity.
Qed.

Lemma toLowerCase_idem (s : string) : toLowerCase (toLowerCase s) = toLowerCase s.
Proof.
  induction s as [|c s IH]; cbn [toLowerCase]; [reflexivity|].
  rewrite lowerCodeUnit_idem, IH. reflexivity.
Qed.

Lemma toLowerCase_app (s t : string) :
  toLowerCase (s +:+ t) = toLowerCase s +:+ toLowerCase t.
Proof.
  induction s as [|c s IH]; [reflexivity|].
  change (String c s +:+ t) with (String c (s +:+ t)). cbn [toLowerCase].
  rewrite IH. reflexivity.
Qed.

Lemma toLowerCase_trimStart (s : string) :
  toLowerCase (trimStart s) = trimStart (toLowerCase s).
Proof.
  induction s as [|c s IH]; cbn [toLowerCase trimStart]; [reflexivity|].
  rewrite isWhiteSpace_lowerCodeUnit.
  destruct (isWhiteSpace c); [exact IH | reflexivity].
Qed.

Lemma toLowerCase_trimEnd (s : string) :
  toLowerCase (trimEnd s) = trimEnd (toLowerCase s).
Proof.
  induction s as [|c s IH]; cbn [toLowerCase trimEnd]; [reflexivity|].
  rewrite <- IH, isWhiteSpace_lowerCodeUnit.
  destruct (trimEnd s) as [|d kept]; cbn [toLowerCase].
  - destruct (isWhiteSpace c); reflexivity.
  - reflexivity.
Qed.

Lemma trimEnd_idem (s : string) : trimEnd (trimEnd s) = trimEnd s.
Proof.
  induction s as [|c s IH]; cbn [trimEnd]; [reflexivity|].
  destruct (trimEnd s) as [|d kept] eqn:Hkept.
  - destruct (isWhiteSpace c) eqn:Hc; cbn [trimEnd]; [reflexivity|].
    rewrite Hc. reflexivity.
  - cbn [trimEnd]. cbn [trimEnd] in IH. rewrite IH. reflexivity.
Qed.

(** A string that does not start with white space keeps its first
    character under [trimEnd]. *)
Lemma trimStart_trimEnd_trimStart (s : string) :
  trimStart (trimEnd (trimStart s)) = trimEnd (trimStart s).
Proof.
  induction s as [|c s IH]; cbn [trimStart]; [reflexivity|].
  destruct (isWhiteSpace c) eqn:Hc; [exact IH|].
  cbn [trimEnd]. destruct (trimEnd s) as [|d kept]; rewrite ?Hc; cbn [trimStart];
    rewrite Hc; reflexivity.
Qed.

Lemma trim_idem (s : string) : trim (trim s) = trim s.
Proof.
  unfold trim. rewrite trimStart_trimEnd_trimStart. apply trimEnd_idem.
Qed.

Lemma toLowerCase_trim (s : string) : toLowerCase (trim s) = trim (toLowerCase s).
Proof. unfold trim. rewrite toLowerCase_trimEnd, toLowerCase_trimStart. reflexivity. Qed.

Lemma normalize_fixed (s : string) : normalize (normalize s) = normalize s.
Proof.
  unfold normalize. rewrite toLowerCase_trim, toLowerCase_idem. apply trim_idem.
Qed.

Lemma trimEnd_allWhiteSpace (s : string) : allWhiteSpace s = true → trimEnd s = "".
Proof.
  induction s as [|c s IH]; cbn [allWhiteSpace trimEnd]; [reflexivity|].
  intros H. apply andb_true_iff in H as [Hc Hs]. rewrite (IH Hs), Hc. reflexivity.
Qed.

Lemma trimStart_app_blank (a s : string) :
  allWhiteSpace a = true → trimStart (a +:+ s) = trimStart s.
Proof.
  induction a as [|c a IH]; [reflexivity|].
  change (String c a +:+ s) with (String c (a +:+ s)). cbn [allWhiteSpace trimStart].
  intros H. apply andb_true_iff in H as [Hc Ha]. rewrite Hc. exact (IH Ha).
Qed.

Lemma trimEnd_app_blank (s b : string) :
  allWhiteSpace b = true → trimEnd (s +:+ b) = trimEnd s.
Proof.
  intros Hb. induction s as [|c s IH].
  - apply trimEnd_allWhiteSpace, Hb.
  - change (String c s +:+ b) with (String c (s +:+ b)). cbn [trimEnd].
    rewrite IH. reflexivity.
Qed.

Lemma trim_app_blank (s b : string) :
  allWhiteSpace b = true → trim (s +:+ b) = trim s.
Proof.
  intros Hb. unfold trim. induction s as [|c s IH].
  - change ("" +:+ b) with b. rewrite (trimStart_allWhiteSpace b Hb). reflexivity.
  - change (String c s +:+ b) with (String c (s +:+ b)). cbn [trimStart].
    destruct (isWhiteSpace c); [exact IH|].
    exact (trimEnd_app_blank (String c s) b Hb).
Qed.

Lemma allWhiteSpace_toLowerCase (s : string) :
  allWhiteSpace (toLowerCase s) = allWhiteSpace s.
Proof.
  induction s as [|c s IH]; cbn [toLowerCase allWhiteSpace]; [reflexivity|].
  rewrite isWhiteSpace_lowerCodeUnit, IH. reflexivity.
Qed.

Lemma trimStart_blank_inv (s : string) : trimStart s = "" → allWhiteSpace s = true.
Proof.
  induction s as [|c s IH]; cbn [allWhiteSpace trimStart]; [reflexivity|].
  destruct (isWhiteSpace c); [exact IH | discriminate].
Qed.

Lemma trimEnd_trimStart_blank_inv (s : string) :
  trimEnd (trimStart s) = "" → trimStart s = "".
Proof.
  induction s as [|c s IH]; cbn [trimStart]; [reflexivity|].
  destruct (isWhiteSpace c) eqn:Hc; [exact IH|].
  cbn [trimEnd]. destruct (trimEnd s); rewrite ?Hc; discriminate.
Qed.

(** X1.  Normalisation is idempotent: the normal form of an email is
    already lower case and trimmed, so normalising it again gives it back.
    A key of the store, once computed, is found again under itself. *)
Theorem normalize_idempotent (s : string) :
  normalize (normalize s) = normalize s
  ∧ toLowerCase (normalize s) = normalize s
  ∧ trim (normalize s) = normalize s.
Proof.
  split; [apply normalize_fixed | split].
  - unfold normalize. rewrite toLowerCase_trim, toLowerCase_idem. reflexivity.
  - unfold normalize. apply trim_idem.
Qed.

(** X2.  Letter case and surrounding white space do not matter to the
    key: an email padded on both sides with blanks, and spelled with other
    letter case, has the normal form of the plain spelling. *)
Theorem normalize_ignores_case_and_padding (a b s t : string) :
  allWhiteSpace a = true →
  allWhiteSpace b = true →
  toLowerCase s = toLowerCase t →
  normalize (a +:+ s +:+ b) = normalize t.
Proof.
  intros Ha Hb Hst. unfold normalize.
  rewrite !toLowerCase_app, Hst.
  rewrite (toLowerCase_allWhiteSpace a Ha), (toLowerCase_allWhiteSpace b Hb).
  unfold trim at 1. rewrite (trimStart_app_blank a _ Ha).
  exact (trim_app_blank (toLowerCase t) b Hb).
Qed.

(** X3.  The empty key belongs to the blank emails alone: an email
    normalises to the empty string exactly when every character of it is
    white space. *)
Theorem normalize_empty_iff_blank (s : string) :
  normalize s = "" ↔ allWhiteSpace s = true.
Proof.
  split.
  - intros H. unfold normalize, trim in H.
    apply trimEnd_trimStart_blank_inv, trimStart_blank_inv in H.
    rewrite allWhiteSpace_toLowerCase in H. exact H.
  - apply normalize_allWhiteSpace.
Qed.

(** ** What a route can do to the world *)

Lemma truthy_string_inv (s : string) : truthy (JsString s) = true → s ≠ "".
Proof. intros H ->. discriminate H. Qed.

Lemma strictNeq_false_inv (stored : option string) (v : JsValue) :
  truthy v = true → strictNeq stored v = false →
  ∃ c, stored = Some c ∧ v = JsString c.
Proof.
  destruct stored as [c|], v; cbn; try discriminate.
  intros _ H. apply negb_false_iff in H.
  destruct (String.eqb_spec c s); [subst; eauto | discriminate].
Qed.

Section RouteOutcomes.

Variable bcryptHash : string → string → string.
Variable bcryptCompare : string → string → bool.
Variable envJwtSecret : option string.

(** Signup either fails and changes nothing, or stores a new record under
    a key that was free and mails the code. *)
Lemma signup_outcome salt generated req w :
  (fst (run (signup bcryptHash salt generated req) w) = w
   ∧ succeeded (snd (run (signup bcryptHash salt generated req) w)) = false)
  ∨ ∃ s p,
      signupEmail req = JsString s ∧ signupPassword req = JsString p
      ∧ s ≠ "" ∧ p ≠ ""
      ∧ userStore w !! normalize s = None
      ∧ run (signup bcryptHash salt generated req) w
        = (mkWorld
             (<[normalize s :=
                  mkUser (normalize s) (bcryptHash salt p) false (Some generated)
                         None (orUndefined (signupWalletAddress req))]> (userStore w))
             (outbox w ++ [VerificationMail (normalize s) generated]),
           Created).
Proof.
  destruct req as [e p wal]. unfold_handler; request_fields.
  repeat case_step; try (left; split; reflexivity).
  right. do 2 eexists. repeat split; try reflexivity.
  - apply truthy_string_inv; assumption.
  - apply truthy_string_inv; assumption.
  - match goal with H : bool_decide _ = false |- _ =>
      apply bool_decide_eq_false_1 in H; apply eq_None_not_Some; exact H end.
Qed.

(** Verification either fails and changes nothing, or marks verified an
    unverified record whose stored code is the string that was sent. *)
Lemma verifyEmail_outcome req w :
  (fst (run (verifyEmail req) w) = w
   ∧ succeeded (snd (run (verifyEmail req) w)) = false)
  ∨ ∃ s c u,
      verifyEmailEmail req = JsString s ∧ verifyEmailCode req = JsString c
      ∧ s ≠ "" ∧ c ≠ ""
      ∧ userStore w !! normalize s = Some u
      ∧ isVerified u = false ∧ verificationCode u = Some c
      ∧ run (verifyEmail req) w
        = (mkWorld (<[normalize s := markVerified u]> (userStore w)) (outbox w),
           Verified).
Proof.
  destruct req as [e code]. unfold_handler; request_fields.
  repeat case_step; try (left; split; reflexivity).
  match goal with
  | Ht : truthy code = true, Hn : strictNeq _ code = false |- _ =>
      destruct (strictNeq_false_inv _ _ Ht Hn) as (c & Hc & ->)
  end.
  right. exists s, c, u. repeat split; try assumption; try reflexivity.
  - apply truthy_string_inv; assumption.
  - apply truthy_string_inv; assumption.
Qed.

(** Login never writes. *)
Lemma login_outcome now req w :
  fst (run (login bcryptCompare envJwtSecret now req) w) = w.
Proof.
  destruct req as [e p]. unfold_handler; request_fields.
  repeat case_step; reflexivity.
Qed.

(** A reset request changes nothing, or stores the generated code on the
    record of the email and mails it. *)
Lemma requestReset_outcome generated req w :
  (fst (run (requestReset generated req) w) = w
   ∧ (succeeded (snd (run (requestReset generated req) w)) = false
      ∨ ∃ s, requestResetEmail req = JsString s ∧ s ≠ ""
             ∧ userStore w !! normalize s = None))
  ∨ ∃ s u,
      requestResetEmail req = JsString s ∧ s ≠ ""
      ∧ userStore w !! normalize s = Some u
      ∧ run (requestReset generated req) w
        = (mkWorld (<[normalize s := withResetCode generated u]> (userStore w))
                   (outbox w ++ [ResetPasswordMail (normalize s) generated]),
           ResetRequested).
Proof.
  destruct req as [e]. unfold_handler; request_fields.
  repeat case_step.
  all: first
    [ solve [ left; split; [reflexivity | left; reflexivity] ]
    | solve [ left; split; [reflexivity|]; right; eexists;
              split; [reflexivity|]; split;
              [apply truthy_string_inv; assumption | assumption] ]
    | solve [ right; do 2 eexists; split; [reflexivity|]; split;
              [apply truthy_string_inv; assumption|];
              split; [eassumption | reflexivity] ] ].
Qed.

(** A confirmation either fails and changes nothing, or overwrites the
    hash of a record whose pending reset code is the string that was sent,
    and clears that code. *)
Lemma confirmReset_outcome salt req w :
  (fst (run (confirmReset bcryptHash salt req) w) = w
   ∧ succeeded (snd (run (confirmReset bcryptHash salt req) w)) = false)
  ∨ ∃ s c p u,
      confirmResetEmail req = JsString s ∧ confirmResetCode req = JsString c
      ∧ confirmResetNewPassword req = JsString p
      ∧ s ≠ "" ∧ c ≠ "" ∧ p ≠ ""
      ∧ userStore w !! normalize s = Some u
      ∧ resetCode u = Some c
      ∧ run (confirmReset bcryptHash salt req) w
        = (mkWorld (<[normalize s := withPassword (bcryptHash salt p) u]>
                      (userStore w)) (outbox w),
           PasswordReset).
Proof.
  destruct req as [e code p]. unfold_handler; request_fields.
  repeat case_step; try (left; split; reflexivity).
  match goal with
  | Ht : truthy code = true, Hn : strictNeq _ code = false |- _ =>
      destruct (strictNeq_false_inv _ _ Ht Hn) as (c & Hc & ->)
  end.
  right. do 4 eexists. repeat split; try eassumption; try reflexivity;
    apply truthy_string_inv; assumption.
Qed.

End RouteOutcomes.

(** ** Failure, and what each route leaves alone *)

Section RouteFrames.

Variable bcryptHash : string → string → string.
Variable bcryptCompare : string → string → bool.
Variable envJwtSecret : option string.

(** X4.  A request that is not answered 200 or 201 has no effect: the
    store and the outbox are what they were.  Every write of a route comes
    after its last check. *)
Theorem failure_changes_nothing r w :
  succeeded (snd (run (handle bcryptHash bcryptCompare envJwtSecret r) w)) = false →
  fst (run (handle bcryptHash bcryptCompare envJwtSecret r) w) = w.
Proof.
  destruct r as [salt gen req | req | now req | gen req | salt req | route]; cbn [handle]; intros Hf.
  - destruct (signup_outcome bcryptHash salt gen req w)
      as [[Hw _] | (s & p & _ & _ & _ & _ & _ & Hrun)]; [exact Hw|].
    rewrite Hrun in Hf. discriminate Hf.
  - destruct (verifyEmail_outcome req w)
      as [[Hw _] | (s & c & u & _ & _ & _ & _ & _ & _ & _ & Hrun)]; [exact Hw|].
    rewrite Hrun in Hf. discriminate Hf.
  - apply login_outcome.
  - destruct (requestReset_outcome gen req w)
      as [[Hw _] | (s & u & _ & _ & _ & Hrun)]; [exact Hw|].
    rewrite Hrun in Hf. discriminate Hf.
  - destruct (confirmReset_outcome bcryptHash salt req w)
      as [[Hw _] | (s & c & p & u & _ & _ & _ & _ & _ & _ & _ & _ & Hrun)]; [exact Hw|].
    rewrite Hrun in Hf. discriminate Hf.
  - reflexivity.
Qed.

(** X5.  Login is read-only: whatever the request and the answer, the
    world after a login is the world before it. *)
Theorem login_reads_only now req w :
  fst (run (login bcryptCompare envJwtSecret now req) w) = w.
Proof. apply login_outcome. Qed.

(** A request rewrites at most the record under the normal form of the
    email it names. *)
Lemma handle_writes_named_key r w :
  userStore (fst (run (handle bcryptHash bcryptCompare envJwtSecret r) w)) = userStore w
  ∨ ∃ s u',
      requestEmail r = JsString s
      ∧ userStore (fst (run (handle bcryptHash bcryptCompare envJwtSecret r) w))
        = <[normalize s := u']> (userStore w).
Proof.
  destruct r as [salt gen req | req | now req | gen req | salt req | route]; cbn [handle requestEmail].
  - destruct (signup_outcome bcryptHash salt gen req w)
      as [[-> _] | (s & p & He & _ & _ & _ & _ & ->)]; [left; reflexivity|].
    right. eauto.
  - destruct (verifyEmail_outcome req w)
      as [[-> _] | (s & c & u & He & _ & _ & _ & _ & _ & _ & ->)]; [left; reflexivity|].
    right. eauto.
  - left. rewrite login_outcome. reflexivity.
  - destruct (requestReset_outcome gen req w)
      as [[-> _] | (s & u & He & _ & _ & ->)]; [left; reflexivity|].
    right. eauto.
  - destruct (confirmReset_outcome bcryptHash salt req w)
      as [[-> _] | (s & c & p & u & He & _ & _ & _ & _ & _ & _ & _ & ->)];
      [left; reflexivity|].
    right. eauto.
  - left. reflexivity.
Qed.

(** X6.  A request touches one account at most: a record whose key is not
    the normal form of the email of the request is left exactly as it was,
    and a key that was free stays free. *)
Theorem request_touches_one_account r w k :
  (∀ s, requestEmail r = JsString s → normalize s ≠ k) →
  userStore (fst (run (handle bcryptHash bcryptCompare envJwtSecret r) w)) !! k
  = userStore w !! k.
Proof.
  intros Hk. destruct (handle_writes_named_key r w) as [-> | (s & u' & He & ->)].
  - reflexivity.
  - apply lookup_insert_ne. exact (Hk s He).
Qed.

(** How one request changes a stored record. *)
Lemma handle_record_step r w k u :
  userStore w !! k = Some u →
  ∃ u',
    userStore (fst (run (handle bcryptHash bcryptCompare envJwtSecret r) w)) !! k = Some u'
    ∧ email u' = email u
    ∧ (isVerified u = true → isVerified u' = true)
    ∧ match r with
      | Signup _ _ _ | Login _ _ | NoBody _ => u' = u
      | VerifyEmail _ =>
          passwordHash u' = passwordHash u ∧ resetCode u' = resetCode u
      | RequestReset _ _ =>
          passwordHash u' = passwordHash u ∧ isVerified u' = isVerified u
          ∧ verificationCode u' = verificationCode u
      | ConfirmReset _ _ =>
          isVerified u' = isVerified u ∧ verificationCode u' = verificationCode u
      end.
Proof.
  intros Hu.
  destruct r as [salt gen req | req | now req | gen req | salt req | route]; cbn [handle].
  - destruct (signup_outcome bcryptHash salt gen req w)
      as [[-> _] | (s & p & _ & _ & _ & _ & Hnone & ->)]; [eauto|].
    cbn [fst userStore]. rewrite lookup_insert_ne by congruence. eauto.
  - destruct (verifyEmail_outcome req w)
      as [[-> _] | (s & c & u0 & _ & _ & _ & _ & Hu0 & _ & _ & ->)];
      [exists u; repeat split; auto|].
    cbn [fst userStore]. destruct (decide (normalize s = k)) as [<-|Hne].
    + rewrite lookup_insert_eq. rewrite Hu0 in Hu. injection Hu as ->.
      eexists. split; [reflexivity|]. cbn. repeat split; auto.
    + rewrite lookup_insert_ne by exact Hne. exists u. repeat split; auto.
  - rewrite login_outcome. eauto.
  - destruct (requestReset_outcome gen req w)
      as [[-> _] | (s & u0 & _ & _ & Hu0 & ->)]; [exists u; repeat split; auto|].
    cbn [fst userStore]. destruct (decide (normalize s = k)) as [<-|Hne].
    + rewrite lookup_insert_eq. rewrite Hu0 in Hu. injection Hu as ->.
      eexists. split; [reflexivity|]. cbn. repeat split; auto.
    + rewrite lookup_insert_ne by exact Hne. exists u. repeat split; auto.
  - destruct (confirmReset_outcome bcryptHash salt req w)
      as [[-> _] | (s & c & p & u0 & _ & _ & _ & _ & _ & _ & Hu0 & _ & ->)];
      [exists u; repeat split; auto|].
    cbn [fst userStore]. destruct (decide (normalize s = k)) as [<-|Hne].
    + rewrite lookup_insert_eq. rewrite Hu0 in Hu. injection Hu as ->.
      eexists. split; [reflexivity|]. cbn. repeat split; auto.
    + rewrite lookup_insert_ne by exact Hne. exists u. repeat split; auto.
  - exists u. repeat split; auto.
Qed.

(** X7.  Accounts persist.  Whatever requests are served, a stored record
    stays in the store under its key, keeps its [email], and, once
    verified, stays verified: there is no way back to unverified and no
    deletion. *)
Theorem accounts_persist rs w k u :
  userStore w !! k = Some u →
  ∃ u',
    userStore (serve bcryptHash bcryptCompare envJwtSecret rs w) !! k = Some u'
    ∧ email u' = email u
    ∧ (isVerified u = true → isVerified u' = true).
Proof.
  revert w u. induction rs as [|r rs IH]; intros w u Hu; cbn [serve].
  - eauto.
  - destruct (handle_record_step r w k u Hu) as (u1 & Hu1 & He1 & Hv1 & _).
    destruct (IH _ u1 Hu1) as (u2 & Hu2 & He2 & Hv2).
    exists u2. split; [exact Hu2|]. split; [congruence | auto].
Qed.

(** X8.  What each route leaves alone in the records it finds.  Signup and
    login (and a request without body) change no existing record: a signup
    cannot overwrite an account.
    Verification leaves the password hash and a pending reset code as they
    are.  A reset request leaves the password hash, and both reset routes
    leave the verification flag and the pending verification code. *)
Theorem route_frames r w k u :
  userStore w !! k = Some u →
  ∃ u',
    userStore (fst (run (handle bcryptHash bcryptCompare envJwtSecret r) w)) !! k = Some u'
    ∧ match r with
      | Signup _ _ _ | Login _ _ | NoBody _ => u' = u
      | VerifyEmail _ =>
          passwordHash u' = passwordHash u ∧ resetCode u' = resetCode u
      | RequestReset _ _ =>
          passwordHash u' = passwordHash u ∧ isVerified u' = isVerified u
          ∧ verificationCode u' = verificationCode u
      | ConfirmReset _ _ =>
          isVerified u' = isVerified u ∧ verificationCode u' = verificationCode u
      end.
Proof.
  intros Hu. destruct (handle_record_step r w k u Hu) as (u' & Hu' & _ & _ & Hframe).
  exists u'. split; assumption.
Qed.

(** X9.  No second account by another spelling.  After a signup has
    created the account of an email, a signup with the same email in other
    letter case and padded with blanks, with whatever password and wallet,
    is answered Conflict, 409, and changes nothing. *)
Theorem signup_twice_conflict w e e' a b p p' wallet wallet' salt salt' generated generated' :
  e ≠ "" → p ≠ "" → e' ≠ "" → truthy p' = true →
  allWhiteSpace a = true → allWhiteSpace b = true →
  toLowerCase e' = toLowerCase e →
  userStore w !! normalize e = None →
  let w1 := fst (run (signup bcryptHash salt generated
                        (mkSignupRequest (JsString e) (JsString p) wallet)) w) in
  run (signup bcryptHash salt' generated'
         (mkSignupRequest (JsString (a +:+ e' +:+ b)) p' wallet')) w1
  = (w1, Conflict).
Proof.
  intros He Hp He' Hp' Ha Hb Hcase Hnone w1.
  assert (Hkey : normalize (a +:+ e' +:+ b) = normalize e).
  { unfold normalize. rewrite !toLowerCase_app, Hcase.
    rewrite (toLowerCase_allWhiteSpace a Ha), (toLowerCase_allWhiteSpace b Hb).
    unfold trim at 1. rewrite (trimStart_app_blank a _ Ha).
    exact (trim_app_blank (toLowerCase e) b Hb). }
  assert (Hsome : is_Some (userStore w1 !! normalize e)).
  { subst w1. rewrite signup_run by assumption. rewrite Hnone. cbn [fst userStore].
    rewrite lookup_insert_eq. eauto. }
  assert (Hne : a +:+ e' +:+ b ≠ "").
  { intros Hempty. apply He'.
    destruct a; [|discriminate Hempty]. destruct e'; [reflexivity | discriminate Hempty]. }
  unfold_handler; request_fields.
  rewrite (truthy_string _ Hne), Hp'. cbn -[normalize].
  rewrite Hkey, bool_decide_eq_true_2 by exact Hsome. reflexivity.
Qed.

End RouteFrames.

(** ** When a route answers with success *)

Section RouteSoundness.

Variable bcryptHash : string → string → string.
Variable bcryptCompare : string → string → bool.
Variable envJwtSecret : option string.

(** X10.  Verification succeeds for the stored code only.  If verify-email
    answers 200, the request named an existing, unverified account and its
    code field was a string equal to the [verificationCode] stored on that
    account; the record is then stored verified with the code cleared. *)
Theorem verifyEmail_success_needs_stored_code req w :
  succeeded (snd (run (verifyEmail req) w)) = true →
  ∃ s c u,
    verifyEmailEmail req = JsString s
    ∧ verifyEmailCode req = JsString c
    ∧ userStore w !! normalize s = Some u
    ∧ isVerified u = false
    ∧ verificationCode u = Some c
    ∧ userStore (fst (run (verifyEmail req) w)) !! normalize s
      = Some (mkUser (email u) (passwordHash u) true None
                     (resetCode u) (walletAddress u)).
Proof.
  intros Hok.
  destruct (verifyEmail_outcome req w)
    as [[_ Hf] | (s & c & u & He & Hc & _ & _ & Hu & Hv & Hcode & Hrun)];
    [congruence|].
  exists s, c, u. repeat split; try assumption.
  rewrite Hrun. cbn [fst userStore]. apply lookup_insert_eq.
Qed.

(** X11.  A password is reset for the pending code only.  If confirm-reset
    answers 200, the request named an existing account, its code field was
    a string equal to the [resetCode] stored on that account, and its new
    password was a string; the record is then stored with a hash of that
    password and with no reset code. *)
Theorem confirmReset_success_needs_pending_code salt req w :
  succeeded (snd (run (confirmReset bcryptHash salt req) w)) = true →
  ∃ s c p u,
    confirmResetEmail req = JsString s
    ∧ confirmResetCode req = JsString c
    ∧ confirmResetNewPassword req = JsString p
    ∧ userStore w !! normalize s = Some u
    ∧ resetCode u = Some c
    ∧ userStore (fst (run (confirmReset bcryptHash salt req) w)) !! normalize s
      = Some (mkUser (email u) (bcryptHash salt p) (isVerified u)
                     (verificationCode u) None (walletAddress u)).
Proof.
  intros Hok.
  destruct (confirmReset_outcome bcryptHash salt req w)
    as [[_ Hf] | (s & c & p & u & He & Hc & Hp & _ & _ & _ & Hu & Hcode & Hrun)];
    [congruence|].
  exists s, c, p, u. repeat split; try assumption.
  rewrite Hrun. cbn [fst userStore]. apply lookup_insert_eq.
Qed.


(** X13.  Login succeeds for a verified account and an accepted password
    only.  If login answers 200, the request named an existing account
    that is verified, its password field was a string that
    [bcrypt.compare] accepts against the stored hash, and the answer
    carries the [email] and [walletAddress] of the record, in the body and
    in the token alike. *)
Theorem login_success_needs_verified_and_password now req w :
  succeeded (snd (run (login bcryptCompare envJwtSecret now req) w)) = true →
  ∃ s q u,
    loginEmail req = JsString s
    ∧ loginPassword req = JsString q
    ∧ userStore w !! normalize s = Some u
    ∧ isVerified u = true
    ∧ bcryptCompare q (passwordHash u) = true
    ∧ snd (run (login bcryptCompare envJwtSecret now req) w)
      = mkResponse 200
          (LoginBody (mkToken (email u) (walletAddress u) now (now + 7200)
                              (JWT_SECRET envJwtSecret))
                     (email u) (walletAddress u)).
Proof.
  destruct req as [e p]. unfold_handler; request_fields.
  repeat case_step; try discriminate.
  intros _. do 3 eexists. repeat split; eassumption.
Qed.

End RouteSoundness.

(** ** Input that is missing or is not a string *)

Section RouteInputs.

Variable bcryptHash : string → string → string.
Variable bcryptCompare : string → string → bool.
Variable envJwtSecret : option string.

(** X14.  The missing-input check is the first test on the fields of the
    body and decides alone.  When [req.body] is an object, a route answers
    its InvalidInput response (400 with the message of the route) exactly
    when one of the fields it requires is falsy: missing, [null], [false],
    zero or the empty string; it then changes nothing, whatever the store
    holds.  When there is no body, the destructuring that precedes the
    check throws: the route answers 500, not 400, and changes nothing. *)
Theorem missing_field_iff_invalid_input r w :
  (hasBody r = true →
   (forallb truthy (requiredFields r) = false ↔
    snd (run (handle bcryptHash bcryptCompare envJwtSecret r) w)
    = missingFieldResponse r)
   ∧ (forallb truthy (requiredFields r) = false →
      fst (run (handle bcryptHash bcryptCompare envJwtSecret r) w) = w))
  ∧ (hasBody r = false →
     run (handle bcryptHash bcryptCompare envJwtSecret r) w = (w, InternalError)
     ∧ InternalError ≠ missingFieldResponse r)
  ∧ status (missingFieldResponse r) = 400.
Proof.
  split; [|split].
  - intros Hbody. split.
    + destruct r as [salt gen [e p wal] | [e c] | now [e p] | gen [e] | salt [e c p] | route];
        try discriminate Hbody;
        cbn [handle requiredFields missingFieldResponse routeOf forallb];
        unfold_handler; request_fields; rewrite ?andb_true_r.
      all: repeat case_step; cbn [andb snd]; split; intros H;
        first [reflexivity | discriminate H | congruence].
    + destruct r as [salt gen [e p wal] | [e c] | now [e p] | gen [e] | salt [e c p] | route];
        try discriminate Hbody;
        cbn [handle requiredFields forallb];
        unfold_handler; request_fields; rewrite ?andb_true_r.
      all: repeat case_step; cbn [andb fst]; intros H;
        first [reflexivity | discriminate H | congruence].
  - destruct r as [? ? ? | ? | ? ? | ? ? | ? ? | route]; try discriminate.
    intros _. split; [reflexivity|]. destruct route; discriminate.
  - destruct r as [? ? ? | ? | ? ? | ? ? | ? ? | route]; try reflexivity.
    destruct route; reflexivity.
Qed.

(** X15.  An email that is truthy but not a string ends in the [catch]
    of the route.  When every required field is truthy and the email field
    is a number, [true], an array or an object, [email.toLowerCase] is not
    a function: each route answers 500 and changes nothing. *)
Theorem nonstring_email_internal_error r w :
  forallb truthy (requiredFields r) = true →
  (∀ s, requestEmail r ≠ JsString s) →
  run (handle bcryptHash bcryptCompare envJwtSecret r) w = (w, InternalError).
Proof.
  destruct r as [salt gen [e p wal] | [e c] | now [e p] | gen [e] | salt [e c p] | route];
    cbn [requiredFields requestEmail forallb]; request_fields;
    rewrite ?andb_true_r, ?andb_true_iff; intros Ht Hns.
  all: try (unfold_handler; reflexivity).
  all: unfold_handler; request_fields.
  all: repeat match goal with H : _ ∧ _ |- _ => destruct H end.
  all: repeat match goal with H : truthy _ = true |- _ => rewrite H; clear H end.
  all: cbn -[normalize insert lookup].
  all: destruct e; try reflexivity; exfalso; eapply Hns; reflexivity.
Qed.

(** X16.  Accounts are created by signup alone.  If a key is free before a
    request and holds a record after it, the request was a signup answered
    201, the key is the normal form of its email, and the record is
    unverified, without reset code, with the generated code pending. *)
Theorem only_signup_creates r w k :
  userStore w !! k = None →
  is_Some (userStore (fst (run (handle bcryptHash bcryptCompare envJwtSecret r) w)) !! k) →
  ∃ salt generated req s p,
    r = Signup salt generated req
    ∧ signupEmail req = JsString s ∧ k = normalize s
    ∧ signupPassword req = JsString p
    ∧ snd (run (handle bcryptHash bcryptCompare envJwtSecret r) w) = Created
    ∧ userStore (fst (run (handle bcryptHash bcryptCompare envJwtSecret r) w)) !! k
      = Some (mkUser k (bcryptHash salt p) false (Some generated) None
                     (orUndefined (signupWalletAddress req))).
Proof.
  intros Hnone Hsome.
  destruct r as [salt gen req | req | now req | gen req | salt req | route]; cbn [handle] in *.
  - destruct (signup_outcome bcryptHash salt gen req w)
      as [[Hw _] | (s & p & He & Hp & _ & _ & _ & Hrun)].
    + rewrite Hw, Hnone in Hsome. destruct Hsome; discriminate.
    + rewrite Hrun in *. cbn [fst snd userStore] in *.
      destruct (decide (normalize s = k)) as [<-|Hne].
      * exists salt, gen, req, s, p. repeat split; try assumption.
        apply lookup_insert_eq.
      * rewrite lookup_insert_ne, Hnone in Hsome by exact Hne.
        destruct Hsome; discriminate.
  - exfalso. destruct (verifyEmail_outcome req w)
      as [[Hw _] | (s & c & u & _ & _ & _ & _ & Hu & _ & _ & Hrun)].
    + rewrite Hw, Hnone in Hsome. destruct Hsome; discriminate.
    + rewrite Hrun in Hsome. cbn [fst userStore] in Hsome.
      destruct (decide (normalize s = k)) as [<-|Hne]; [congruence|].
      rewrite lookup_insert_ne, Hnone in Hsome by exact Hne.
      destruct Hsome; discriminate.
  - exfalso. rewrite login_outcome, Hnone in Hsome. destruct Hsome; discriminate.
  - exfalso. destruct (requestReset_outcome gen req w)
      as [[Hw _] | (s & u & _ & _ & Hu & Hrun)].
    + rewrite Hw, Hnone in Hsome. destruct Hsome; discriminate.
    + rewrite Hrun in Hsome. cbn [fst userStore] in Hsome.
      destruct (decide (normalize s = k)) as [<-|Hne]; [congruence|].
      rewrite lookup_insert_ne, Hnone in Hsome by exact Hne.
      destruct Hsome; discriminate.
  - exfalso. destruct (confirmReset_outcome bcryptHash salt req w)
      as [[Hw _] | (s & c & p & u & _ & _ & _ & _ & _ & _ & Hu & _ & Hrun)].
    + rewrite Hw, Hnone in Hsome. destruct Hsome; discriminate.
    + rewrite Hrun in Hsome. cbn [fst userStore] in Hsome.
      destruct (decide (normalize s = k)) as [<-|Hne]; [congruence|].
      rewrite lookup_insert_ne, Hnone in Hsome by exact Hne.
      destruct Hsome; discriminate.
  - exfalso. destruct Hsome as [u Hu].
    change (userStore w !! k = Some u) in Hu. congruence.
Qed.

End RouteInputs.

(** ** Mail *)

Section MailProperties.

Variable bcryptHash : string → string → string.
Variable bcryptCompare : string → string → bool.
Variable envJwtSecret : option string.


(** X18.  No mail without an account.  In every reachable world each mail
    that was handed to the notifier is addressed to the key of a stored
    account: a reset request for an unknown email never produces a mail. *)
Theorem mail_only_to_accounts w :
  reachable bcryptHash bcryptCompare envJwtSecret w →
  Forall (λ m, is_Some (userStore w !! mailTo m)) (outbox w).
Proof.
  induction 1 as [|w r _ IH _]; [constructor|].
  assert (Hold : Forall (λ m, is_Some (userStore
              (fst (run (handle bcryptHash bcryptCompare envJwtSecret r) w)) !! mailTo m))
            (outbox w)).
  { eapply Forall_impl; [exact IH|]. intros m [u Hu]. cbn beta in *.
    destruct (handle_keeps_wallet bcryptHash bcryptCompare envJwtSecret r w _ u Hu)
      as (u' & Hu' & _). eauto. }
  destruct r as [salt gen req | req | now req | gen req | salt req | route]; cbn [handle] in *.
  - destruct (signup_outcome bcryptHash salt gen req w)
      as [[Hw _] | (s & p & _ & _ & _ & _ & _ & Hrun)].
    + rewrite Hw in *. exact IH.
    + rewrite Hrun in *. cbn [fst userStore outbox] in *.
      apply Forall_app. split; [exact Hold|].
      constructor; [|constructor]. cbn [mailTo]. rewrite lookup_insert_eq. eauto.
  - destruct (verifyEmail_outcome req w)
      as [[Hw _] | (s & c & u & _ & _ & _ & _ & _ & _ & _ & Hrun)].
    + rewrite Hw in *. exact IH.
    + rewrite Hrun in *. exact Hold.
  - rewrite login_outcome in *. exact IH.
  - destruct (requestReset_outcome gen req w)
      as [[Hw _] | (s & u & _ & _ & _ & Hrun)].
    + rewrite Hw in *. exact IH.
    + rewrite Hrun in *. cbn [fst userStore outbox] in *.
      apply Forall_app. split; [exact Hold|].
      constructor; [|constructor]. cbn [mailTo]. rewrite lookup_insert_eq. eauto.
  - destruct (confirmReset_outcome bcryptHash salt req w)
      as [[Hw _] | (s & c & p & u & _ & _ & _ & _ & _ & _ & _ & _ & Hrun)].
    + rewrite Hw in *. exact IH.
    + rewrite Hrun in *. exact Hold.
  - exact IH.
Qed.

End MailProperties.

(** ** How the routes compose *)

Section RouteComposition.

Variable bcryptHash : string → string → string.
Variable bcryptCompare : string → string → bool.
Variable envJwtSecret : option string.

(** The answer of login is a function of what [loginView] shows of the
    records. *)
Lemma login_answer_by_view now req w1 w2 :
  (∀ k, loginView <$> (userStore w1 !! k) = loginView <$> (userStore w2 !! k)) →
  snd (run (login bcryptCompare envJwtSecret now req) w1)
  = snd (run (login bcryptCompare envJwtSecret now req) w2).
Proof.
  intros Hview. destruct req as [e p]. unfold_handler; request_fields.
  destruct (truthy e), (truthy p); cbn -[normalize]; try reflexivity.
  destruct e; cbn -[normalize]; try reflexivity.
  specialize (Hview (normalize s)).
  destruct (userStore w1 !! normalize s) as [u1|],
           (userStore w2 !! normalize s) as [u2|]; cbn in Hview; try discriminate Hview;
    [|reflexivity].
  injection Hview as He Hh Hv Hw. rewrite He, Hh, Hv, Hw.
  destruct (isVerified u2); cbn; [|reflexivity].
  destruct p; cbn; try reflexivity.
  destruct (bcryptCompare s0 (passwordHash u2)); reflexivity.
Qed.

(** X19.  A reset request locks nobody out.  Whatever reset request is
    served, for whatever email, every login gets the answer it would have
    got without it: the password in force stays in force until a
    confirmation replaces it. *)
Theorem requestReset_keeps_login_answer generated req now lreq w :
  snd (run (login bcryptCompare envJwtSecret now lreq)
           (fst (run (requestReset generated req) w)))
  = snd (run (login bcryptCompare envJwtSecret now lreq) w).
Proof.
  apply login_answer_by_view. intros k.
  destruct (requestReset_outcome generated req w)
    as [[-> _] | (s & u & _ & _ & Hu & ->)]; [reflexivity|].
  cbn [fst userStore]. destruct (decide (normalize s = k)) as [<-|Hne].
  - rewrite lookup_insert_eq, Hu. reflexivity.
  - rewrite lookup_insert_ne by exact Hne. reflexivity.
Qed.

(** X20.  A reset does not verify and does not spend the verification
    code.  For an unverified account with a pending verification code, a
    reset that is requested and confirmed succeeds, the account is
    unverified afterwards, login with the new password is answered
    NotVerified, and verification with the original code then succeeds. *)
Theorem reset_keeps_verification_pending w e u c generated salt p now :
  e ≠ "" → p ≠ "" → c ≠ "" → generated ≠ "" →
  userStore w !! normalize e = Some u →
  isVerified u = false →
  verificationCode u = Some c →
  let w1 := fst (run (requestReset generated (mkRequestResetRequest (JsString e))) w) in
  let w2 := fst (run (confirmReset bcryptHash salt
                        (mkConfirmResetRequest (JsString e) (JsString generated)
                                               (JsString p))) w1) in
  snd (run (confirmReset bcryptHash salt
              (mkConfirmResetRequest (JsString e) (JsString generated) (JsString p)))
           w1) = PasswordReset
  ∧ userStore w2 !! normalize e
    = Some (mkUser (email u) (bcryptHash salt p) false (Some c) None (walletAddress u))
  ∧ run (login bcryptCompare envJwtSecret now
           (mkLoginRequest (JsString e) (JsString p))) w2 = (w2, NotVerified)
  ∧ snd (run (verifyEmail (mkVerifyEmailRequest (JsString e) (JsString c))) w2)
    = Verified.
Proof.
  intros He Hp Hc Hg Hu Hv Hcode w1 w2.
  assert (H1 : userStore w1 !! normalize e = Some (withResetCode generated u)).
  { subst w1. rewrite requestReset_run by assumption. rewrite Hu. cbn [fst userStore].
    apply lookup_insert_eq. }
  assert (Hrun : run (confirmReset bcryptHash salt
              (mkConfirmResetRequest (JsString e) (JsString generated) (JsString p))) w1
            = (mkWorld (<[normalize e :=
                            withPassword (bcryptHash salt p) (withResetCode generated u)]>
                          (userStore w1)) (outbox w1), PasswordReset)).
  { rewrite confirmReset_run by side. rewrite H1. cbn [resetCode withResetCode].
    rewrite strictNeq_same. reflexivity. }
  assert (H2 : userStore w2 !! normalize e
               = Some (mkUser (email u) (bcryptHash salt p) false (Some c) None
                              (walletAddress u))).
  { subst w2. rewrite Hrun. cbn [fst userStore]. rewrite lookup_insert_eq.
    unfold withPassword, withResetCode.
    cbn [email passwordHash isVerified verificationCode resetCode walletAddress].
    rewrite Hv, Hcode. reflexivity. }
  split; [rewrite Hrun; reflexivity|]. split; [exact H2|]. split.
  - rewrite login_run by side. rewrite H2. reflexivity.
  - rewrite verifyEmail_run by side. rewrite H2. cbn [isVerified verificationCode].
    rewrite strictNeq_same. reflexivity.
Qed.

End RouteComposition.

(** ** What holds of every reachable store *)

Section StoreInvariants.

Variable bcryptHash : string → string → string.
Variable bcryptCompare : string → string → bool.
Variable envJwtSecret : option string.

(** A property of records that signup establishes and the three updates
    keep holds of every record of every reachable world. *)
Lemma reachable_map_Forall (P : string → UserRecord → Prop) :
  (∀ s p salt generated wallet,
     s ≠ "" → p ≠ "" →
     P (normalize s) (mkUser (normalize s) (bcryptHash salt p) false
                             (Some generated) None wallet)) →
  (∀ k u, P k u → P k (markVerified u)) →
  (∀ k u generated, P k u → P k (withResetCode generated u)) →
  (∀ k u salt p, p ≠ "" → P k u → P k (withPassword (bcryptHash salt p) u)) →
  ∀ w, reachable bcryptHash bcryptCompare envJwtSecret w →
       map_Forall P (userStore w).
Proof.
  intros Hnew Hverify Hrequest Hconfirm w Hw.
  induction Hw as [|w r _ IH _]; [apply map_Forall_empty|].
  destruct r as [salt gen req | req | now req | gen req | salt req | route]; cbn [handle].
  - destruct (signup_outcome bcryptHash salt gen req w)
      as [[-> _] | (s & p & _ & _ & Hs & Hp & _ & ->)]; [exact IH|].
    cbn [fst userStore]. apply map_Forall_insert_2; [|exact IH]. apply Hnew; assumption.
  - destruct (verifyEmail_outcome req w)
      as [[-> _] | (s & c & u & _ & _ & _ & _ & Hu & _ & _ & ->)]; [exact IH|].
    cbn [fst userStore]. apply map_Forall_insert_2; [|exact IH].
    apply Hverify. exact (IH _ _ Hu).
  - rewrite login_outcome. exact IH.
  - destruct (requestReset_outcome gen req w)
      as [[-> _] | (s & u & _ & _ & Hu & ->)]; [exact IH|].
    cbn [fst userStore]. apply map_Forall_insert_2; [|exact IH].
    apply Hrequest. exact (IH _ _ Hu).
  - destruct (confirmReset_outcome bcryptHash salt req w)
      as [[-> _] | (s & c & p & u & _ & _ & _ & _ & _ & Hp & Hu & _ & ->)]; [exact IH|].
    cbn [fst userStore]. apply map_Forall_insert_2; [|exact IH].
    apply Hconfirm; [exact Hp|]. exact (IH _ _ Hu).
  - exact IH.
Qed.

(** X21.  Only hashes are stored.  In every reachable world the
    [passwordHash] of every record is what [bcrypt.hash] returned for a
    non-empty password string: no route stores a password as it came, and
    none stores anything else in that field. *)
Theorem stored_hash_is_bcrypt_hash w k u :
  reachable bcryptHash bcryptCompare envJwtSecret w →
  userStore w !! k = Some u →
  ∃ salt p, p ≠ "" ∧ passwordHash u = bcryptHash salt p.
Proof.
  intros Hw Hu.
  refine (reachable_map_Forall
            (λ _ u, ∃ salt p, p ≠ "" ∧ passwordHash u = bcryptHash salt p)
            _ _ _ _ w Hw k u Hu); cbn; eauto.
Qed.

(** X22.  The store invariant.  In every reachable world a record sits
    under its own [email], and that key is the normal form of itself, so
    one email has one account whatever its spelling; a verified record
    holds no verification code, an unverified one holds a code of the
    generator; a pending reset code is a code of the generator. *)
Theorem reachable_store_invariant w k u :
  reachable bcryptHash bcryptCompare envJwtSecret w →
  userStore w !! k = Some u →
  email u = k
  ∧ normalize k = k
  ∧ (isVerified u = true → verificationCode u = None)
  ∧ (isVerified u = false →
     ∃ c, verificationCode u = Some c ∧ isGeneratedCode c = true)
  ∧ (∀ c, resetCode u = Some c → isGeneratedCode c = true).
Proof.
  intros Hw Hu.
  pose proof (storeOk_lookup w k u
                (reachable_storeOk bcryptHash bcryptCompare envJwtSecret w Hw) Hu) as Hok.
  unfold userOk in Hok.
  apply andb_true_iff in Hok as [Hok Hreset]. apply andb_true_iff in Hok as [Hemail Hcode].
  split; [apply String.eqb_eq, Hemail|]. split.
  - exact (reachable_map_Forall (λ k _, normalize k = k)
             ltac:(intros; apply normalize_fixed) ltac:(auto) ltac:(auto) ltac:(auto)
             w Hw k u Hu).
  - split; [|split].
    + intros Hv. rewrite Hv in Hcode. destruct (verificationCode u); [discriminate | reflexivity].
    + intros Hv. rewrite Hv in Hcode. destruct (verificationCode u) as [c|]; [eauto | discriminate].
    + intros c Hc. rewrite Hc in Hreset. exact Hreset.
Qed.

Lemma JWT_SECRET_nonempty : JWT_SECRET envJwtSecret ≠ "".
Proof.
  unfold JWT_SECRET. destruct envJwtSecret as [s|]; [|discriminate].
  destruct (String.eqb_spec s ""); [discriminate | assumption].
Qed.

(** X23.  The token of a successful login.  In every reachable world a
    login answered 200 returns the normal form of the email of the request,
    as the [email] of the body and as the subject of the token; the wallet
    address of the token is the one of the body; the token expires 7200
    seconds after it was issued; and it is signed with a secret that is
    never empty: the configured one when that is set and not empty, the
    built-in default otherwise. *)
Theorem login_token_claims now req w :
  reachable bcryptHash bcryptCompare envJwtSecret w →
  status (snd (run (login bcryptCompare envJwtSecret now req) w)) = 200 →
  ∃ s token wallet,
    loginEmail req = JsString s
    ∧ body (snd (run (login bcryptCompare envJwtSecret now req) w))
      = LoginBody token (normalize s) wallet
    ∧ sub token = normalize s
    ∧ tokenWalletAddress token = wallet
    ∧ iat token = now ∧ exp token = now + 7200
    ∧ signedWith token ≠ ""
    ∧ (∀ secret, envJwtSecret = Some secret → secret ≠ "" → signedWith token = secret)
    ∧ (envJwtSecret = None ∨ envJwtSecret = Some "" →
       signedWith token = "default-secret-change-in-production").
Proof.
  intros Hw Hok. destruct req as [e p].
  destruct (login_success_inv bcryptCompare envJwtSecret now e p w Hok)
    as (s & u & -> & Hu & Hrun).
  pose proof (storeOk_lookup w _ u
                (reachable_storeOk bcryptHash bcryptCompare envJwtSecret w Hw) Hu) as Huok.
  unfold userOk in Huok.
  apply andb_true_iff in Huok as [Huok _]. apply andb_true_iff in Huok as [Hemail _].
  apply String.eqb_eq in Hemail.
  exists s, (jwtSign envJwtSecret now (email u) (walletAddress u)), (walletAddress u).
  rewrite Hrun. unfold LoggedIn. cbn [snd body sub tokenWalletAddress iat exp signedWith jwtSign].
  rewrite Hemail. repeat split.
  - apply JWT_SECRET_nonempty.
  - intros secret -> Hne. unfold JWT_SECRET.
    destruct (String.eqb_spec secret ""); [contradiction | reflexivity].
  - intros [-> | ->]; reflexivity.
Qed.

End StoreInvariants.

(** ** What the answers give away *)

Section Disclosure.

Variable bcryptHash : string → string → string.
Variable bcryptCompare : string → string → bool.
Variable envJwtSecret : option string.

(** X24.  Outside login and reset request, the answers tell whether an
    email has an account.  For a request with its fields supplied and a
    string email: signup answers Conflict exactly when the normalised email
    has an account; verify-email and confirm-reset answer NotFound, 404,
    exactly when it has none; and login answers NotVerified exactly when it
    has an account that is not verified. *)
Theorem account_existence_is_observable w e c p salt generated wallet now :
  e ≠ "" → truthy c = true → truthy p = true →
  (snd (run (signup bcryptHash salt generated
               (mkSignupRequest (JsString e) p wallet)) w) = Conflict
   ↔ is_Some (userStore w !! normalize e))
  ∧ (snd (run (verifyEmail (mkVerifyEmailRequest (JsString e) c)) w) = NotFound
     ↔ userStore w !! normalize e = None)
  ∧ (snd (run (confirmReset bcryptHash salt
                 (mkConfirmResetRequest (JsString e) c p)) w) = NotFound
     ↔ userStore w !! normalize e = None)
  ∧ (snd (run (login bcryptCompare envJwtSecret now
                 (mkLoginRequest (JsString e) p)) w) = NotVerified
     ↔ ∃ u, userStore w !! normalize e = Some u ∧ isVerified u = false).
Proof.
  intros He Hc Hp. split; [|split; [|split]].
  - unfold_handler; request_fields. rewrite (truthy_string e He), Hp.
    cbn -[normalize insert lookup].
    destruct (userStore w !! normalize e) as [u|] eqn:Hu.
    + rewrite bool_decide_eq_true_2 by eauto. cbn. split; eauto.
    + rewrite bool_decide_eq_false_2 by (intros [? ?]; congruence).
      cbn -[normalize insert lookup].
      destruct p; cbn; (split; [discriminate | intros [? ?]; discriminate]).
  - rewrite verifyEmail_run by assumption.
    destruct (userStore w !! normalize e) as [u|]; [|split; reflexivity].
    destruct (isVerified u); [split; discriminate|].
    destruct (strictNeq (verificationCode u) c); split; discriminate.
  - rewrite confirmReset_run by assumption.
    destruct (userStore w !! normalize e) as [u|]; [|split; reflexivity].
    destruct (strictNeq (resetCode u) c); [split; discriminate|].
    destruct p; split; discriminate.
  - rewrite login_run by assumption.
    destruct (userStore w !! normalize e) as [u|].
    + destruct (isVerified u) eqn:Hv.
      * split; [|intros (u0 & [= <-] & Hv0); congruence].
        destruct p; try discriminate.
        destruct (bcryptCompare s (passwordHash u)); discriminate.
      * split; [eauto | reflexivity].
    + split; [discriminate | intros (u0 & Hu0 & _); discriminate].
Qed.

End Disclosure.

(** ** The further properties at the sample accounts *)

Lemma normalize_ignores_case_and_padding_sample :
  normalize ("  " +:+ "A@X.com" +:+ " ") = normalize "a@x.com".
Proof.
  apply (normalize_ignores_case_and_padding "  " " " "A@X.com" "a@x.com");
    reflexivity.
Defined.

Lemma failure_changes_nothing_sample :
  fst (run (handle plainHash plainCompare None
              (ConfirmReset "salt2"
                 (mkConfirmResetRequest (JsString "a@x.com") (JsString "000000")
                                        (JsString "newpw"))))
           (resetPending (worldVerified JsUndefined)))
  = resetPending (worldVerified JsUndefined).
Proof.
  apply (failure_changes_nothing plainHash plainCompare None). reflexivity.
Defined.

Lemma request_touches_one_account_sample :
  userStore (fst (run (handle plainHash plainCompare None
                         (RequestReset "654321" sampleRequestReset))
                      worldTwoAccounts)) !! "b@x.com"
  = userStore worldTwoAccounts !! "b@x.com".
Proof.
  apply (request_touches_one_account plainHash plainCompare None).
  intros s [= <-]. vm_compute. discriminate.
Defined.

Lemma accounts_persist_sample :
  ∃ u',
    userStore (serve plainHash plainCompare None
                 [RequestReset "654321" sampleRequestReset;
                  ConfirmReset "salt2" (sampleConfirmReset "newpw");
                  Login 0 (sampleLogin "newpw")]
                 (worldVerified JsUndefined)) !! "a@x.com" = Some u'
    ∧ email u' = email (sampleRecord true None None JsUndefined)
    ∧ (isVerified (sampleRecord true None None JsUndefined) = true →
       isVerified u' = true).
Proof.
  apply (accounts_persist plainHash plainCompare None). reflexivity.
Defined.

Lemma route_frames_sample :
  ∃ u',
    userStore (fst (run (handle plainHash plainCompare None
                           (VerifyEmail (sampleVerifyEmail "123456")))
                        (resetPending (worldSignedUp JsUndefined)))) !! "a@x.com"
    = Some u'
    ∧ passwordHash u' = plainHash "salt" "pw123"
    ∧ resetCode u' = Some "654321".
Proof.
  exact (route_frames plainHash plainCompare None
           (VerifyEmail (sampleVerifyEmail "123456"))
           (resetPending (worldSignedUp JsUndefined)) "a@x.com"
           (sampleRecord false (Some "123456") (Some "654321") JsUndefined) eq_refl).
Defined.

Lemma signup_twice_conflict_sample :
  run (signup plainHash "salt9" "999999"
         (mkSignupRequest (JsString (" " +:+ "A@X.COM" +:+ " ")) (JsString "other")
                          JsUndefined))
      (worldSignedUp JsUndefined)
  = (worldSignedUp JsUndefined, Conflict).
Proof.
  apply (signup_twice_conflict plainHash emptyWorld "a@x.com" "A@X.COM" " " " "
           "pw123" (JsString "other") JsUndefined JsUndefined "salt" "salt9"
           "123456" "999999"); try reflexivity; discriminate.
Defined.

Lemma verifyEmail_success_needs_stored_code_sample :
  ∃ s c u,
    verifyEmailEmail (sampleVerifyEmail "123456") = JsString s
    ∧ verifyEmailCode (sampleVerifyEmail "123456") = JsString c
    ∧ userStore (worldSignedUp JsUndefined) !! normalize s = Some u
    ∧ isVerified u = false
    ∧ verificationCode u = Some c.
Proof.
  destruct (verifyEmail_success_needs_stored_code (sampleVerifyEmail "123456")
              (worldSignedUp JsUndefined) eq_refl)
    as (s & c & u & H1 & H2 & H3 & H4 & H5 & _).
  exists s, c, u. repeat split; assumption.
Defined.

Lemma confirmReset_success_needs_pending_code_sample :
  ∃ s c p u,
    confirmResetEmail (sampleConfirmReset "newpw") = JsString s
    ∧ confirmResetCode (sampleConfirmReset "newpw") = JsString c
    ∧ confirmResetNewPassword (sampleConfirmReset "newpw") = JsString p
    ∧ userStore (resetPending (worldVerified JsUndefined)) !! normalize s = Some u
    ∧ resetCode u = Some c.
Proof.
  destruct (confirmReset_success_needs_pending_code plainHash "salt2"
              (sampleConfirmReset "newpw") (resetPending (worldVerified JsUndefined))
              eq_refl)
    as (s & c & p & u & H1 & H2 & H3 & H4 & H5 & _).
  exists s, c, p, u. repeat split; assumption.
Defined.


Lemma login_success_needs_verified_and_password_sample :
  ∃ s q u,
    loginEmail (sampleLogin "pw123") = JsString s
    ∧ loginPassword (sampleLogin "pw123") = JsString q
    ∧ userStore (worldVerified JsUndefined) !! normalize s = Some u
    ∧ isVerified u = true
    ∧ plainCompare q (passwordHash u) = true.
Proof.
  destruct (login_success_needs_verified_and_password plainCompare None 0
              (sampleLogin "pw123") (worldVerified JsUndefined) eq_refl)
    as (s & q & u & H1 & H2 & H3 & H4 & H5 & _).
  exists s, q, u. repeat split; assumption.
Defined.

Lemma missing_field_iff_invalid_input_sample :
  snd (run (handle plainHash plainCompare None
              (Login 0 (mkLoginRequest (JsString "a@x.com") JsUndefined)))
           (worldVerified JsUndefined))
  = mkResponse 400 (ErrorBody "Email and password are required")
  ∧ run (handle plainHash plainCompare None (NoBody LoginRoute))
        (worldVerified JsUndefined)
    = (worldVerified JsUndefined, InternalError).
Proof.
  split.
  - exact (proj1 (proj1 (proj1 (missing_field_iff_invalid_input plainHash plainCompare
                                  None
                                  (Login 0 (mkLoginRequest (JsString "a@x.com")
                                                           JsUndefined))
                                  (worldVerified JsUndefined)) eq_refl)) eq_refl).
  - exact (proj1 (proj1 (proj2 (missing_field_iff_invalid_input plainHash plainCompare
                                  None (NoBody LoginRoute)
                                  (worldVerified JsUndefined))) eq_refl)).
Defined.

Lemma nonstring_email_internal_error_sample :
  run (handle plainHash plainCompare None
         (Login 0 (mkLoginRequest (JsNumber 5) (JsString "pw123"))))
      (worldVerified JsUndefined)
  = (worldVerified JsUndefined, InternalError).
Proof.
  apply (nonstring_email_internal_error plainHash plainCompare None).
  - reflexivity.
  - intros s. discriminate.
Defined.

Lemma only_signup_creates_sample :
  ∃ salt generated req s p,
    Signup "salt" "123456" (sampleSignup JsUndefined) = Signup salt generated req
    ∧ signupEmail req = JsString s ∧ "a@x.com" = normalize s
    ∧ signupPassword req = JsString p.
Proof.
  destruct (only_signup_creates plainHash plainCompare None
              (Signup "salt" "123456" (sampleSignup JsUndefined)) emptyWorld "a@x.com")
    as (salt & generated & req & s & p & H1 & H2 & H3 & H4 & _).
  - reflexivity.
  - exists (sampleRecord false (Some "123456") None JsUndefined). reflexivity.
  - exists salt, generated, req, s, p. repeat split; assumption.
Defined.

Lemma mail_only_to_accounts_sample :
  Forall (λ m, is_Some (userStore (resetPending (worldVerified JsUndefined)) !! mailTo m))
         (outbox (resetPending (worldVerified JsUndefined))).
Proof.
  exact (mail_only_to_accounts plainHash plainCompare None
           (resetPending (worldVerified JsUndefined)) resetPending_reachable).
Defined.

Lemma reset_keeps_verification_pending_sample :
  snd (run (verifyEmail (sampleVerifyEmail "123456"))
           (afterReset (worldSignedUp JsUndefined) "newpw")) = Verified.
Proof.
  refine (proj2 (proj2 (proj2
            (reset_keeps_verification_pending plainHash plainCompare None
               (worldSignedUp JsUndefined) "a@x.com"
               (sampleRecord false (Some "123456") None JsUndefined)
               "123456" "654321" "salt2" "newpw" 0 _ _ _ _ _ _ _))));
    try reflexivity; discriminate.
Defined.

Lemma stored_hash_is_bcrypt_hash_sample :
  ∃ salt p,
    p ≠ "" ∧ passwordHash (sampleRecord true None None JsUndefined) = plainHash salt p.
Proof.
  exact (stored_hash_is_bcrypt_hash plainHash plainCompare None
           (worldVerified JsUndefined) "a@x.com"
           (sampleRecord true None None JsUndefined)
           (worldVerified_reachable JsUndefined) eq_refl).
Defined.

Lemma reachable_store_invariant_sample :
  email (sampleRecord true None None JsUndefined) = "a@x.com"
  ∧ normalize "a@x.com" = "a@x.com".
Proof.
  destruct (reachable_store_invariant plainHash plainCompare None
              (worldVerified JsUndefined) "a@x.com"
              (sampleRecord true None None JsUndefined)
              (worldVerified_reachable JsUndefined) eq_refl)
    as (H1 & H2 & _).
  split; assumption.
Defined.

Lemma login_token_claims_sample :
  ∃ s token wallet,
    loginEmail (sampleLogin "pw123") = JsString s
    ∧ body (snd (run (login plainCompare None 0 (sampleLogin "pw123"))
                     (worldVerified (JsString "0xabc"))))
      = LoginBody token (normalize s) wallet
    ∧ sub token = normalize s
    ∧ exp token = 0 + 7200.
Proof.
  destruct (login_token_claims plainHash plainCompare None 0 (sampleLogin "pw123")
              (worldVerified (JsString "0xabc"))
              (worldVerified_reachable (JsString "0xabc")) eq_refl)
    as (s & token & wallet & H1 & H2 & H3 & _ & _ & H6 & _).
  exists s, token, wallet. repeat split; assumption.
Defined.

Lemma account_existence_is_observable_sample :
  snd (run (verifyEmail (mkVerifyEmailRequest (JsString "nobody@x.com")
                                              (JsString "123456")))
           (worldVerified JsUndefined)) = NotFound.
Proof.
  refine (proj2 (proj1 (proj2
            (account_existence_is_observable plainHash plainCompare None
               (worldVerified JsUndefined) "nobody@x.com" (JsString "123456")
               (JsString "pw") "salt" "123456" JsUndefined 0 _ _ _))) _);
    try reflexivity; discriminate.
Defined.
